(** * NDVI map and weather advisory service: a shallow embedding

    The repository is a set of serverless request handlers (JavaScript) that
    ask a remote geospatial backend (Earth Engine) for a Sentinel-2 derived
    NDVI image and serve it as map tiles or as a scalar at a point, plus a
    handler that asks a text-generation backend for agronomic advice.

    Layout of this development:
    - [JS]           the fragment of JavaScript the handlers rely on
                     (values, truthiness, [parseFloat], [String.replace]);
    - [EE]           the image pipeline the handlers describe to the backend
                     (collection filters, [maskS2clouds], sort, first, NDVI);
    - [Net]          promises with an event trace, the world a handler runs
                     in, HTTP requests and responses;
    - [TileRedirect], [TileProxy], [TileLegacy]   the three tile handlers;
    - [Value], [ValueLegacy]                      the two point-value handlers;
    - [Recommend]                                 the recommendation handler;
    - [Process]      a process answering a sequence of requests;
    - [Props]        the notions the statements are written with;
    - [Sample]       a small catalog and world to run the handlers in;
    - [Advice]       the helpers of the recommendation handler
                     ([interpretNdvi], [getWeatherDescription], the
                     settling of [getOpenAiRecommendation]);
    - [Notions], [Demo]   further notions and sample data;
    - theorems, in the order: cloud mask, composite, NDVI, point value,
      tile URL, tile proxy, credentials, recommendation; then further
      properties: the helpers of the recommendation handler, the order
      of session and queries, the handlers in general. *)

From Stdlib Require Import ZArith QArith Qabs List String Ascii Lia Lqa Bool Sorted Permutation.
From stdpp Require Import base gmap strings pretty.
Import ListNotations.

Set Warnings "-register-all".

Open Scope string_scope.
Open Scope Z_scope.

(* ===================================================================== *)
(** * The JavaScript fragment *)
(* ===================================================================== *)

Module JS.

(** A JavaScript number.  Finite values are kept as exact rationals: the
    handlers only compare numbers with NaN, null and zero, and hand them
    to the backend. *)
Inductive number :=
| NaN
| Infinity (negative : bool)
| Finite (q : Q).

Inductive value :=
| undefined
| null
| Bool (b : bool)
| Num (n : number)
| Str (s : string)
| Obj (fields : list (string * value)).

Definition isNaN (n : number) : bool :=
  match n with NaN => true | _ => false end.

(** [!v] is [negb (ToBoolean v)]. *)
Definition ToBoolean (v : value) : bool :=
  match v with
  | undefined | null => false
  | Bool b => b
  | Num NaN => false
  | Num (Infinity _) => true
  | Num (Finite q) => negb (Qeq_bool q 0)
  | Str s => negb (String.eqb s "")
  | Obj _ => true
  end.

(** A property read [o.k] on an object, whose keys are distinct; a
    missing key reads [undefined]. *)
Fixpoint get (fields : list (string * value)) (k : string) : value :=
  match fields with
  | [] => undefined
  | (k', v) :: rest => if String.eqb k k' then v else get rest k
  end.

(** A query parameter is a string or is absent; [ToString] of an absent
    one is the text "undefined". *)
Definition ToString (o : option string) : string :=
  match o with Some s => s | None => "undefined" end.

Definition of_param (o : option string) : value :=
  match o with Some s => Str s | None => undefined end.

(** ** parseFloat *)

Definition is_digit (c : ascii) : bool :=
  let n := N_of_ascii c in ((48 <=? n) && (n <=? 57))%N.

Definition digit_val (c : ascii) : Z := Z.of_N (N_of_ascii c) - 48.

(** The white space of one byte: TAB, LF, VT, FF, CR and the space. *)
Definition StrWhiteSpaceChar (c : ascii) : bool :=
  let n := N_of_ascii c in (((9 <=? n) && (n <=? 13)) || (n =? 32))%N.

Fixpoint trim_start (s : string) : string :=
  match s with
  | String c r => if StrWhiteSpaceChar c then trim_start r else s
  | EmptyString => s
  end.

(** Texts are sequences of bytes in UTF-8.  The white space of
    [parseFloat] that is not a single byte: U+00A0, and in three bytes
    U+FEFF, U+1680, U+2000 to U+200A, U+2028, U+2029, U+202F, U+205F and
    U+3000. *)
Definition two_byte_space (c d : ascii) : bool :=
  ((N_of_ascii c =? 194) && (N_of_ascii d =? 160))%N.

Definition three_byte_space (c d e : ascii) : bool :=
  let x := N_of_ascii c in
  let y := N_of_ascii d in
  let z := N_of_ascii e in
  (((x =? 239) && (y =? 187) && (z =? 191))
   || ((x =? 225) && (y =? 154) && (z =? 128))
   || ((x =? 226) && (y =? 128)
       && (((128 <=? z) && (z <=? 138)) || (z =? 168) || (z =? 169) || (z =? 175)))
   || ((x =? 226) && (y =? 129) && (z =? 159))
   || ((x =? 227) && (y =? 128) && (z =? 128)))%N.

(** Skips every leading StrWhiteSpaceChar, of one, two or three bytes. *)
Fixpoint skip_white_space (s : string) : string :=
  match s with
  | String c r =>
      if StrWhiteSpaceChar c then skip_white_space r
      else
        match r with
        | String d r' =>
            if two_byte_space c d then skip_white_space r'
            else
              match r' with
              | String e r'' =>
                  if three_byte_space c d e then skip_white_space r'' else s
              | EmptyString => s
              end
        | EmptyString => s
        end
  | EmptyString => s
  end.

(** A magnitude from 2^1024 - 2^970 on rounds to Infinity. *)
Definition overflows (q : Q) : bool :=
  Qle_bool (inject_Z (2 ^ 1024 - 2 ^ 970)) (Qabs q).

(** Reads the longest run of decimal digits: the value accumulated on
    [acc], the number of digits read, the rest of the text. *)
Fixpoint take_digits (s : string) (acc : Z) (count : nat) : Z * nat * string :=
  match s with
  | String c r =>
      if is_digit c then take_digits r (10 * acc + digit_val c) (S count)
      else (acc, count, s)
  | EmptyString => (acc, count, s)
  end.

Definition take_sign (s : string) : bool * string :=
  match s with
  | String "-" r => (true, r)
  | String "+" r => (false, r)
  | _ => (false, s)
  end.

Fixpoint strip_prefix (p s : string) : option string :=
  match p with
  | EmptyString => Some s
  | String a p' =>
      match s with
      | String b s' => if Ascii.eqb a b then strip_prefix p' s' else None
      | EmptyString => None
      end
  end.

Definition pow10 (e : Z) : Q :=
  if 0 <=? e then inject_Z (10 ^ e) else / inject_Z (10 ^ (- e)).

Definition exponent_part (s : string) : Z :=
  match s with
  | String c r =>
      if Ascii.eqb c "e" || Ascii.eqb c "E" then
        let '(eneg, r1) := take_sign r in
        let '(ev, ne, _) := take_digits r1 0 0 in
        match ne with
        | O => 0
        | S _ => if eneg then - ev else ev
        end
      else 0
  | EmptyString => 0
  end.

(** The longest prefix of [s] that is a StrDecimalLiteral, as a number;
    NaN when there is none. *)
Definition StrDecimalLiteral (s : string) : number :=
  let '(neg, s1) := take_sign s in
  match strip_prefix "Infinity" s1 with
  | Some _ => Infinity neg
  | None =>
      let '(ip, ni, s2) := take_digits s1 0 0 in
      let '(m, nf, s3) :=
        match s2 with
        | String "." r => take_digits r ip 0
        | _ => (ip, O, s2)
        end in
      match (ni + nf)%nat with
      | O => NaN
      | S _ =>
          let q := ((if neg then - (1) else 1) * inject_Z m
                    * pow10 (exponent_part s3 - Z.of_nat nf))%Q in
          if overflows q then Infinity neg else Finite q
      end
  end.

Definition parseFloat (o : option string) : number :=
  StrDecimalLiteral (skip_white_space (ToString o)).

(** ** String.prototype.replace with a string pattern *)

(** The replacement text is a template: [$$], [$&], [$`] and [$'] are
    expanded; with a string pattern there are no captures, so every other
    [$] stays as it is. *)
Fixpoint GetSubstitution (matched before after replacement : string) : string :=
  match replacement with
  | EmptyString => EmptyString
  | String c r =>
      if Ascii.eqb c "$" then
        match r with
        | String d r' =>
            if Ascii.eqb d "$" then
              String "$" (GetSubstitution matched before after r')
            else if Ascii.eqb d "&" then
              matched +:+ GetSubstitution matched before after r'
            else if Ascii.eqb d "`" then
              before +:+ GetSubstitution matched before after r'
            else if Ascii.eqb d "'" then
              after +:+ GetSubstitution matched before after r'
            else String c (GetSubstitution matched before after r)
        | EmptyString => String c EmptyString
        end
      else String c (GetSubstitution matched before after r)
  end.

(** Scans [s] for the first occurrence of [pattern]; [before] is the text
    already passed over. *)
Fixpoint replace_scan (pattern replacement before s : string) : string :=
  match strip_prefix pattern s with
  | Some after => GetSubstitution pattern before after replacement +:+ after
  | None =>
      match s with
      | EmptyString => EmptyString
      | String c s' =>
          String c (replace_scan pattern replacement (before +:+ String c "") s')
      end
  end.

(** [s.replace(pattern, replacement)]: only the first occurrence is
    replaced. *)
Definition replace (s pattern : string) (replacement : option string) : string :=
  replace_scan pattern (ToString replacement) "" s.

End JS.

(* ===================================================================== *)
(** * The image pipeline described to the backend *)
(* ===================================================================== *)

Module EE.

(** [ee.Geometry.Rectangle([minLon, minLat, maxLon, maxLat])] and
    [ee.Geometry.Point([lon, lat])]. *)
Inductive Geometry :=
| Rectangle (minLon minLat maxLon maxLat : Q)
| Point (lon lat : JS.number).

(** One pixel of a catalog image: raw digital numbers of the red band
    (B4), the near infra-red band (B8) and the quality-flag band (QA60). *)
Record RawPixel := { B4 : Z; B8 : Z; QA60 : Z }.

(** One pixel after [divide(10000)]: every band is a quotient. *)
Record Pixel := { b4 : Q; b8 : Q; qa60 : Q }.

(** An image: the properties the handlers use, its footprint, and its
    pixels ([None] where the pixel is masked or outside the footprint). *)
Record Image (P : Type) := {
  system_index : string;
  system_time_start : Z;
  CLOUDY_PIXEL_PERCENTAGE : Q;
  intersects : Geometry -> bool;
  pixel_at : Geometry -> option P
}.
Arguments system_index {P} _.
Arguments system_time_start {P} _.
Arguments CLOUDY_PIXEL_PERCENTAGE {P} _.
Arguments intersects {P} _ _.
Arguments pixel_at {P} _ _.

(** ** Per-pixel operators *)

Definition bitwiseAnd (a b : Z) : Z := Z.land a b.
Definition eq_ (a b : Z) : Z := if a =? b then 1 else 0.
Definition and_ (a b : Z) : Z := if negb (a =? 0) && negb (b =? 0) then 1 else 0.

Definition divide (p : RawPixel) (d : Z) : Pixel :=
  {| b4 := inject_Z (B4 p) / inject_Z d;
     b8 := inject_Z (B8 p) / inject_Z d;
     qa60 := inject_Z (QA60 p) / inject_Z d |}%Q.

(** [image.updateMask(mask)]: a pixel stays only where the mask is not
    zero. *)
Definition updateMask (p : RawPixel) (mask : Z) : option RawPixel :=
  if mask =? 0 then None else Some p.

(** ** maskS2clouds *)

Definition cloudBitMask : Z := Z.shiftl 1 10.
Definition cirrusBitMask : Z := Z.shiftl 1 11.

(** The value of [mask] at a pixel whose quality flags are [qa]. *)
Definition cloud_mask (qa : Z) : Z :=
  and_ (eq_ (bitwiseAnd qa cloudBitMask) 0) (eq_ (bitwiseAnd qa cirrusBitMask) 0).

Definition maskS2clouds_pixel (p : RawPixel) : option Pixel :=
  match updateMask p (cloud_mask (QA60 p)) with
  | Some p' => Some (divide p' 10000)
  | None => None
  end.

(** Modelled from the spec: what the backend's [updateMask] and
    [divide] do to the properties of an image is not in the repository.
    The spec has the "filtered, masked collection" ordered "by descending
    acquisition time" and probed for an identity property, so the masked
    image is taken to carry the index, the acquisition time, the cloud
    cover and the footprint of the image it is made from.  The pixels
    are as the source has them. *)
Definition maskS2clouds (image : Image RawPixel) : Image Pixel :=
  {| system_index := system_index image;
     system_time_start := system_time_start image;
     CLOUDY_PIXEL_PERCENTAGE := CLOUDY_PIXEL_PERCENTAGE image;
     intersects := intersects image;
     pixel_at := fun g =>
       match pixel_at image g with
       | Some p => maskS2clouds_pixel p
       | None => None
       end |}.

(** ** Collections *)

Definition filterBounds {P} (g : Geometry) (c : list (Image P)) : list (Image P) :=
  List.filter (fun i => intersects i g) c.

(** [filterDate(start, end)]: start inclusive, end exclusive. *)
Definition filterDate {P} (start end_ : Z) (c : list (Image P)) : list (Image P) :=
  List.filter (fun i => (start <=? system_time_start i) && (system_time_start i <? end_)) c.

(** [filter(ee.Filter.lt('CLOUDY_PIXEL_PERCENTAGE', 20))]. *)
Definition filterCloudy {P} (c : list (Image P)) : list (Image P) :=
  List.filter (fun i => match CLOUDY_PIXEL_PERCENTAGE i ?= 20 with Lt => true | _ => false end)%Q c.

Fixpoint insert_desc {P} (x : Image P) (l : list (Image P)) : list (Image P) :=
  match l with
  | [] => [x]
  | y :: l' =>
      if system_time_start x <? system_time_start y
      then y :: insert_desc x l'
      else x :: y :: l'
  end.

(** [sort('system:time_start', false)]: descending, images with equal
    times keep their order. *)
Definition sort_desc {P} (c : list (Image P)) : list (Image P) :=
  fold_right insert_desc [] c.

(** [first()]: the null image on an empty collection. *)
Definition first {P} (c : list (Image P)) : option (Image P) :=
  match c with
  | [] => None
  | i :: _ => Some i
  end.

(** ** NDVI *)

(** Modelled from the spec: the backend's [normalizedDifference] is not
    in the repository.  The handlers bind it to the bands B8 and B4, their
    comment gives the formula (NIR - Red) / (NIR + Red), and the spec
    documents a zero denominator as undefined, a pixel without data. *)
Definition normalized_difference (first_band second_band : Q) : option Q :=
  if Qeq_bool (first_band + second_band) 0 then None
  else Some ((first_band - second_band) / (first_band + second_band))%Q.

(** [image.normalizedDifference(['B8', 'B4']).rename('NDVI')] at a pixel. *)
Definition ndvi_pixel (p : Pixel) : option Q :=
  normalized_difference (b8 p) (b4 p).

Definition normalizedDifference_B8_B4 (image : Image Pixel) : Image Q :=
  {| system_index := system_index image;
     system_time_start := system_time_start image;
     CLOUDY_PIXEL_PERCENTAGE := CLOUDY_PIXEL_PERCENTAGE image;
     intersects := intersects image;
     pixel_at := fun g =>
       match pixel_at image g with
       | Some p => ndvi_pixel p
       | None => None
       end |}.

(** The deferred image the handlers build is the null image when the
    filtered collection is empty. *)
Definition ndvi_of (composite : option (Image Pixel)) : option (Image Q) :=
  match composite with
  | Some i => Some (normalizedDifference_B8_B4 i)
  | None => None
  end.

Definition ms_per_day : Z := 86400000.

End EE.

(* ===================================================================== *)
(** * Promises, the world of a handler, requests and responses *)
(* ===================================================================== *)

Module Net.

(** What a promise is rejected with: [new Error(message)], or the raw
    value an error callback received. *)
Inductive thrown :=
| Error (message : string)
| Raw (reason : string).

(** [error.message]. *)
Definition message_of (e : thrown) : JS.value :=
  match e with
  | Error m => JS.Str m
  | Raw _ => JS.undefined
  end.

Inductive Reducer := Reducer_first | Reducer_mean.

Record RequestOptions := {
  hostname : option string;
  path : option string;
  options_method : string;
  User_Agent : option string
}.

(** The calls a handler makes outside itself, in the order it makes them. *)
Inductive Event :=
| EnvRead (name : string)
| AuthenticateViaPrivateKey (privateKey : JS.value)
| Initialize (project : option string)
| GetMap (vis_min vis_max : Q) (palette : list string)
| EvaluateIndex
| EvaluateReduce (reducer : Reducer) (geometry : EE.Geometry) (scale : Z)
| HttpsRequest (options : RequestOptions)
| OpenAiRequest (prompt apiKey : string).

Inductive outcome (A : Type) :=
| Resolved (a : A)
| Rejected (e : thrown).
Arguments Resolved {A} _.
Arguments Rejected {A} _.

(** A promise that has run: the calls it made and how it settled. *)
Definition Async (A : Type) : Type := list Event * outcome A.

Definition resolve {A} (a : A) : Async A := ([], Resolved a).
Definition reject {A} (e : thrown) : Async A := ([], Rejected e).
Definition emit (ev : Event) : Async unit := ([ev], Resolved tt).

Definition bind {A B} (m : Async A) (k : A -> Async B) : Async B :=
  match m with
  | (t, Resolved a) => let '(t', r) := k a in ((t ++ t')%list, r)
  | (t, Rejected e) => (t, Rejected e)
  end.

Record MapId := { urlFormat : string }.

Record UpstreamResponse := {
  statusCode : Z;
  upstream_headers : gmap string string;
  upstream_body : string
}.

(** Everything outside the handler: the process environment, the clock,
    the catalog and the answers of the remote services.  The prompt text
    and the call to the text-generation service, in which alone the two
    versions of the recommendation handler differ, are taken as given:
    either an error message or a result. *)
Record World := {
  env : gmap string string;
  JSON_parse : string -> string + JS.value;
  authenticateViaPrivateKey : JS.value -> option string;
  initialize : option string -> option string;
  Date_now_first : Z;
  Date_now_second : Z;
  advance_month : Z -> Z -> Z;
  S2_SR_HARMONIZED : list (EE.Image EE.RawPixel);
  getMap : option (EE.Image Q) -> option MapId * option string;
  evaluate_failure : Event -> option string;
  null_image_failure : option string;
  url_parse : string -> option string * option string;
  https_request : RequestOptions -> string + UpstreamResponse;
  createPromptForAgronomist :
    JS.value -> JS.value -> JS.value -> JS.value -> JS.value -> string + string;
  getOpenAiRecommendation : string -> string -> string + string
}.

(** [expr.evaluate(callback)] on a property of the composite: the two
    arguments the callback receives. *)
Definition evaluate_index (w : World) (image : option (EE.Image EE.Pixel))
  : JS.value * option string :=
  match evaluate_failure w EvaluateIndex with
  | Some e => (JS.undefined, Some e)
  | None =>
      match image with
      | Some i => (JS.Str (EE.system_index i), None)
      | None =>
          match null_image_failure w with
          | Some e => (JS.undefined, Some e)
          | None => (JS.null, None)
          end
      end
  end.

(** [image.reduceRegion({reducer, geometry, scale}).get('NDVI').evaluate(callback)]:
    at a single point both reducers give the pixel under the point, and
    null where that pixel is masked. *)
Definition evaluate_reduce (w : World) (reducer : Reducer)
    (image : option (EE.Image Q)) (geometry : EE.Geometry) (scale : Z)
  : JS.value * option string :=
  match evaluate_failure w (EvaluateReduce reducer geometry scale) with
  | Some e => (JS.undefined, Some e)
  | None =>
      match image with
      | Some i =>
          match EE.pixel_at i geometry with
          | Some q => (JS.Num (JS.Finite q), None)
          | None => (JS.null, None)
          end
      | None =>
          match null_image_failure w with
          | Some e => (JS.undefined, Some e)
          | None => (JS.null, None)
          end
      end
  end.

Record Request := {
  method : string;
  query : gmap string string;
  headers : gmap string string;
  body : JS.value
}.

Inductive Body :=
| NoBody
| Json (v : JS.value)
| Text (s : string)
| Piped (upstream : string).

Record Response := {
  status : Z;
  response_headers : gmap string string;
  response_body : Body
}.

(** [try { ... } catch (error) { ... }] around an awaited body. *)
Definition try_catch (m : Async Response) (handler : thrown -> Response)
  : list Event * Response :=
  match m with
  | (t, Resolved r) => (t, r)
  | (t, Rejected e) => (t, handler e)
  end.

(** [a || b]. *)
Definition or_else (a b : JS.value) : JS.value :=
  if JS.ToBoolean a then a else b.

(** [res.redirect(url)] without a status uses the platform's default. *)
Definition default_redirect_status : Z := 307.

Definition redirect (st : Z) (url : string) : Response :=
  {| status := st; response_headers := {[ "Location" := url ]}; response_body := NoBody |}.

Definition json (st : Z) (hs : gmap string string) (v : JS.value) : Response :=
  {| status := st; response_headers := hs; response_body := Json v |}.

(** [privateKey] is parsed from the environment, then the two backend
    calls are chained; [on_auth_error] is what the error callback of
    [authenticateViaPrivateKey] does with the error it receives. *)
Definition authenticate (w : World) (on_auth_error : string -> thrown) : Async unit :=
  bind (emit (EnvRead "GEE_PRIVATE_KEY_JSON")) (fun _ =>
  match JSON_parse w (JS.ToString (env w !! "GEE_PRIVATE_KEY_JSON")) with
  | inl syntax_error => reject (Error syntax_error)
  | inr privateKey =>
      bind (emit (EnvRead "GEE_PROJECT_ID")) (fun _ =>
      let projectId := env w !! "GEE_PROJECT_ID" in
      bind (emit (AuthenticateViaPrivateKey privateKey)) (fun _ =>
      match authenticateViaPrivateKey w privateKey with
      | Some err => reject (on_auth_error err)
      | None =>
          bind (emit (Initialize projectId)) (fun _ =>
          match initialize w projectId with
          | Some e => reject (Raw e)
          | None => resolve tt
          end)
      end))
  end).

Definition vis_min : Q := - (2 # 10).
Definition vis_max : Q := 8 # 10.
Definition palette : list string :=
  ["#E3A857"; "#FCDD94"; "#B6D97C"; "#84C065"; "#45A24B"; "#117A37"].

(** [getMapId(image, visParams)]: the callback rejects on a truthy error
    and resolves with the map id it was given otherwise. *)
Definition getMapId (w : World) (image : option (EE.Image Q)) : Async (option MapId) :=
  bind (emit (GetMap vis_min vis_max palette)) (fun _ =>
  let '(mapId, error) := getMap w image in
  if JS.ToBoolean (JS.of_param error) then reject (Error (JS.ToString error))
  else resolve mapId).

(** [mapId.urlFormat]; reading a property of a missing map id throws. *)
Definition get_urlFormat (mapId : option MapId) : Async string :=
  match mapId with
  | Some m => resolve (urlFormat m)
  | None => reject (Error "Cannot read properties of undefined (reading 'urlFormat')")
  end.

End Net.

Notation "'await' x '<-' m 'in' k" := (Net.bind m (fun x => k))
  (at level 10, x name, m at level 100, k at level 200).
Notation "'perform' m 'then' k" := (Net.bind m (fun _ => k))
  (at level 10, m at level 100, k at level 200).

(* ===================================================================== *)
(** * The tile handlers *)
(* ===================================================================== *)

(** The handler that redirects to the substituted tile URL. *)
Module TileRedirect.
Import Net.

Definition authenticateAndInitialize (w : World) : Async unit :=
  authenticate w (fun err => Error ("GEE Authentication failed: " +:+ err)).

Definition regionOfInterest : EE.Geometry := EE.Rectangle 45 40 90 56.

(** The collection the composite is taken from: region, then the last
    120 days, then cloud cover below 20. *)
Definition candidates (w : World) : list (EE.Image EE.RawPixel) :=
  EE.filterCloudy
    (EE.filterDate (Date_now_first w - 120 * EE.ms_per_day) (Date_now_second w)
      (EE.filterBounds regionOfInterest (S2_SR_HARMONIZED w))).

Definition recentImage (w : World) : option (EE.Image EE.Pixel) :=
  EE.first (EE.sort_desc (map EE.maskS2clouds (candidates w))).

Definition getNdviImage (w : World) : option (EE.Image Q) :=
  EE.ndvi_of (recentImage w).

(** [mapId.urlFormat.replace('{x}', x).replace('{y}', y).replace('{z}', z)]. *)
Definition tile_url (urlFormat : string) (x y z : option string) : string :=
  JS.replace (JS.replace (JS.replace urlFormat "{x}" x) "{y}" y) "{z}" z.

Definition on_error (error : thrown) : Response :=
  json 500 ∅
    (JS.Obj [("error", JS.Str "Failed to generate GEE map tiles.");
             ("details", message_of error)]).

Definition handler (w : World) (req : Request) : list Event * Response :=
  try_catch
    (perform authenticateAndInitialize w then
     let image := getNdviImage w in
     await mapId <- getMapId w image in
     await format <- get_urlFormat mapId in
     let tileUrl :=
       tile_url format (query req !! "x") (query req !! "y") (query req !! "z") in
     resolve (redirect 302 tileUrl))
    on_error.

End TileRedirect.

(** The handler that fetches the substituted tile URL itself and pipes
    the upstream answer to the caller. *)
Module TileProxy.
Import Net.

Definition authenticateAndInitialize := TileRedirect.authenticateAndInitialize.
Definition getNdviImage := TileRedirect.getNdviImage.
Definition tile_url := TileRedirect.tile_url.
Definition on_error := TileRedirect.on_error.

(** The options of the upstream request. *)
Definition options (w : World) (tileUrl : string) (req : Request) : RequestOptions :=
  let parsedUrl := url_parse w tileUrl in
  {| hostname := fst parsedUrl;
     path := snd parsedUrl;
     options_method := "GET";
     User_Agent := headers req !! "user-agent" |}.

(** What the two callbacks of [https.request] write to the caller. *)
Definition relay (answer : string + UpstreamResponse) : Response :=
  match answer with
  | inr proxyRes =>
      {| status := statusCode proxyRes;
         response_headers := upstream_headers proxyRes;
         response_body := Piped (upstream_body proxyRes) |}
  | inl _ =>
      {| status := 500; response_headers := ∅;
         response_body := Text "Failed to proxy tile request" |}
  end.

Definition handler (w : World) (req : Request) : list Event * Response :=
  try_catch
    (perform authenticateAndInitialize w then
     let image := getNdviImage w in
     await mapId <- getMapId w image in
     await format <- get_urlFormat mapId in
     let tileUrl :=
       tile_url format (query req !! "x") (query req !! "y") (query req !! "z") in
     let opts := options w tileUrl req in
     perform emit (HttpsRequest opts) then
     resolve (relay (https_request w opts)))
    on_error.

End TileProxy.

(** The handler that redirects to the template as the backend gave it. *)
Module TileLegacy.
Import Net.

Definition initializeEe (w : World) : Async unit := authenticate w Raw.

Definition candidates (w : World) : list (EE.Image EE.RawPixel) :=
  EE.filterCloudy
    (EE.filterDate (advance_month w (Date_now_first w) (-3)) (Date_now_second w)
      (S2_SR_HARMONIZED w)).

Definition recentImage (w : World) : option (EE.Image EE.Pixel) :=
  EE.first (EE.sort_desc (map EE.maskS2clouds (candidates w))).

Definition getNdviImage (w : World) : option (EE.Image Q) :=
  EE.ndvi_of (recentImage w).

Definition on_error := TileRedirect.on_error.

Definition handler (w : World) (req : Request) : list Event * Response :=
  try_catch
    (perform initializeEe w then
     let image := getNdviImage w in
     await mapId <- getMapId w image in
     await format <- get_urlFormat mapId in
     resolve (redirect default_redirect_status format))
    on_error.

End TileLegacy.

(* ===================================================================== *)
(** * The point-value handlers *)
(* ===================================================================== *)

(** The handler that parses the coordinates, checks that a composite
    exists and then reduces. *)
Module Value.
Import Net.

Definition cors : gmap string string :=
  {[ "Access-Control-Allow-Origin" := "*";
     "Access-Control-Allow-Methods" := "GET, OPTIONS";
     "Access-Control-Allow-Headers" := "Content-Type" ]}.

Definition authenticateAndInitialize (w : World) : Async unit :=
  authenticate w (fun err => Error ("GEE Authentication failed: " +:+ err)).

Definition no_image_message : string :=
  "No recent cloud-free image found for this location.".
Definition no_data_message : string :=
  "Point may be in water or an area with no data.".

(** The collection the composite is taken from: the point, then the last
    120 days, then cloud cover below 20. *)
Definition candidates (w : World) (point : EE.Geometry) : list (EE.Image EE.RawPixel) :=
  EE.filterCloudy
    (EE.filterDate (Date_now_first w - 120 * EE.ms_per_day) (Date_now_second w)
      (EE.filterBounds point (S2_SR_HARMONIZED w))).

Definition composite (w : World) (point : EE.Geometry) : option (EE.Image EE.Pixel) :=
  EE.first (EE.sort_desc (map EE.maskS2clouds (candidates w point))).

(** [result === null || typeof result === 'undefined']. *)
Definition is_missing (v : JS.value) : bool :=
  match v with
  | JS.null | JS.undefined => true
  | _ => false
  end.

Definition runAnalysis (w : World) (lat lon : JS.number) : Async JS.value :=
  let point := EE.Point lon lat in
  let image := composite w point in
  perform emit EvaluateIndex then
  let '(id, err) := evaluate_index w image in
  if JS.ToBoolean (JS.of_param err) || negb (JS.ToBoolean id) then
    reject (Error no_image_message)
  else
    let ndvi := EE.ndvi_of image in
    perform emit (EvaluateReduce Reducer_first point 10) then
    let '(result, error) := evaluate_reduce w Reducer_first ndvi point 10 in
    if JS.ToBoolean (JS.of_param error) then
      reject (Error ("GEE Evaluation Error: " +:+ JS.ToString error))
    else if is_missing result then
      reject (Error no_data_message)
    else
      resolve (JS.Obj [("ndvi", result)]).

Definition on_error (error : thrown) : Response :=
  json 500 cors
    (JS.Obj [("error",
              or_else (message_of error) (JS.Str "An internal server error occurred."))]).

Definition handler (w : World) (req : Request) : list Event * Response :=
  if String.eqb (method req) "OPTIONS" then
    ([], {| status := 200; response_headers := cors; response_body := NoBody |})
  else
    try_catch
      (let lat := JS.parseFloat (query req !! "lat") in
       let lon := JS.parseFloat (query req !! "lon") in
       if JS.isNaN lat || JS.isNaN lon then
         resolve (json 400 cors (JS.Obj [("error", JS.Str "Invalid or missing coordinates.")]))
       else
         perform authenticateAndInitialize w then
         await data <- runAnalysis w lat lon in
         resolve (json 200 cors data))
      on_error.

End Value.

(** The handler that reads [lat] and [lng], reduces the tile server's
    image and answers with whatever the reduction gave. *)
Module ValueLegacy.
Import Net.

Definition initializeEe := TileLegacy.initializeEe.
Definition getNdviImage := TileLegacy.getNdviImage.

(** [evaluate(data)]. *)
Definition evaluate (w : World) (image : option (EE.Image Q)) (point : EE.Geometry)
  : Async JS.value :=
  perform emit (EvaluateReduce Reducer_mean point 10) then
  let '(result, error) := evaluate_reduce w Reducer_mean image point 10 in
  if JS.ToBoolean (JS.of_param error) then reject (Error (JS.ToString error))
  else resolve result.

Definition on_error (error : thrown) : Response :=
  json 500 ∅
    (JS.Obj [("error", JS.Str "Failed to get GEE value.");
             ("details", message_of error)]).

Definition handler (w : World) (req : Request) : list Event * Response :=
  let lat := query req !! "lat" in
  let lng := query req !! "lng" in
  if negb (JS.ToBoolean (JS.of_param lat)) || negb (JS.ToBoolean (JS.of_param lng)) then
    ([], json 400 ∅
           (JS.Obj [("error", JS.Str "Latitude (lat) and Longitude (lng) are required.")]))
  else
    try_catch
      (perform initializeEe w then
       let image := getNdviImage w in
       let point := EE.Point (JS.parseFloat lng) (JS.parseFloat lat) in
       await result <- evaluate w image point in
       resolve (json 200 ∅ (JS.Obj [("ndvi", result)])))
      on_error.

End ValueLegacy.

(* ===================================================================== *)
(** * The recommendation handler *)
(* ===================================================================== *)

Module Recommend.
Import Net.

Definition cors : gmap string string :=
  {[ "Access-Control-Allow-Origin" := "*";
     "Access-Control-Allow-Methods" := "POST, OPTIONS";
     "Access-Control-Allow-Headers" := "Content-Type" ]}.

Definition missing_data_message : string :=
  "Missing required data: lat, lon, ndvi, and weatherData are required.".

(** [const { lat, lon, ndvi, weatherData, lang } = req.body]: throws when
    the body is undefined or null; a body that is not an object has none
    of the properties. *)
Definition destructure (b : JS.value) : Async (list (string * JS.value)) :=
  match b with
  | JS.undefined | JS.null =>
      reject (Error "Cannot destructure property 'lat' of 'req.body'")
  | JS.Obj fields => resolve fields
  | _ => resolve []
  end.

Definition lift {A} (r : string + A) : Async A :=
  match r with
  | inl m => reject (Error m)
  | inr a => resolve a
  end.

Definition on_error (error : thrown) : Response :=
  json 500 cors
    (JS.Obj [("error", JS.Str "Failed to get recommendation.");
             ("details", message_of error)]).

Definition handler (w : World) (req : Request) : list Event * Response :=
  if String.eqb (method req) "OPTIONS" then
    ([], {| status := 200; response_headers := cors; response_body := NoBody |})
  else if negb (String.eqb (method req) "POST") then
    ([], json 405 cors (JS.Obj [("error", JS.Str "Method Not Allowed")]))
  else
    try_catch
      (await fields <- destructure (body req) in
       let lat := JS.get fields "lat" in
       let lon := JS.get fields "lon" in
       let ndvi := JS.get fields "ndvi" in
       let weatherData := JS.get fields "weatherData" in
       let lang := JS.get fields "lang" in
       if negb (JS.ToBoolean lat) || negb (JS.ToBoolean lon)
          || negb (JS.ToBoolean ndvi) || negb (JS.ToBoolean weatherData) then
         resolve (json 400 cors (JS.Obj [("error", JS.Str missing_data_message)]))
       else
         perform emit (EnvRead "OPENAI_API_KEY") then
         let openAiApiKey := env w !! "OPENAI_API_KEY" in
         if negb (JS.ToBoolean (JS.of_param openAiApiKey)) then
           resolve (json 500 cors
                      (JS.Obj [("error",
                                JS.Str "Server configuration error: Missing OpenAI API key.")]))
         else
           await prompt <- lift (createPromptForAgronomist w lat lon ndvi weatherData lang) in
           perform emit (OpenAiRequest prompt (JS.ToString openAiApiKey)) then
           await recommendation <-
             lift (getOpenAiRecommendation w prompt (JS.ToString openAiApiKey)) in
           resolve (json 200 cors (JS.Obj [("recommendation", JS.Str recommendation)])))
      on_error.

End Recommend.

(* ===================================================================== *)
(** * A process serving requests *)
(* ===================================================================== *)

Module Process.
Import Net.

(** A process answers its requests one after the other with the same
    handler, in the same world: the handlers read the environment and
    never write it. *)
Fixpoint serve (handler : World -> Request -> list Event * Response)
    (w : World) (reqs : list Request) : list (list Event * Response) :=
  match reqs with
  | [] => []
  | r :: rest => handler w r :: serve handler w rest
  end.

Definition is_credential_load (ev : Event) : bool :=
  match ev with
  | EnvRead name => String.eqb name "GEE_PRIVATE_KEY_JSON"
  | _ => false
  end.

(** How many times a trace reads the service-account key. *)
Definition credential_loads (t : list Event) : nat :=
  length (List.filter is_credential_load t).

Definition process_trace (runs : list (list Event * Response)) : list Event :=
  concat (map fst runs).

End Process.

(* ===================================================================== *)
(** * Notions used by the statements *)
(* ===================================================================== *)

Module Props.

(** The head of a list is at least as recent as every element. *)
Definition head_latest {P} (l : list (EE.Image P)) : Prop :=
  match l with
  | [] => True
  | h :: _ => forall y, In y l -> EE.system_time_start y <= EE.system_time_start h
  end.

(** The backend accepts the credentials of the process: the key parses,
    authentication and initialization both succeed. *)
Definition session_ok (w : Net.World) (privateKey : JS.value) : Prop :=
  Net.JSON_parse w (JS.ToString (Net.env w !! "GEE_PRIVATE_KEY_JSON")) = inr privateKey
  /\ Net.authenticateViaPrivateKey w privateKey = None
  /\ Net.initialize w (Net.env w !! "GEE_PROJECT_ID") = None.

(** The calls that establish the session, in order. *)
Definition session_events (w : Net.World) (privateKey : JS.value) : list Net.Event :=
  [Net.EnvRead "GEE_PRIVATE_KEY_JSON"; Net.EnvRead "GEE_PROJECT_ID";
   Net.AuthenticateViaPrivateKey privateKey;
   Net.Initialize (Net.env w !! "GEE_PROJECT_ID")].

(** The calls of a trace that talk to the backend (everything but reads
    of the environment). *)
Definition is_backend_call (ev : Net.Event) : bool :=
  match ev with
  | Net.EnvRead _ => false
  | _ => true
  end.

(** Both coordinates of the query parse to a number. *)
Definition has_numeric_coordinates (req : Net.Request) : bool :=
  negb (JS.isNaN (JS.parseFloat (Net.query req !! "lat"))
        || JS.isNaN (JS.parseFloat (Net.query req !! "lon"))).

(** [{c}]: the placeholders of a tile template are [{x}], [{y}], [{z}]. *)
Definition placeholder (c : ascii) : string :=
  String "{" (String c (String "}" EmptyString)).

(** The number of positions of [s] at which [p] occurs. *)
Fixpoint occurrences (p s : string) : nat :=
  (match JS.strip_prefix p s with Some _ => 1 | None => 0 end
   + match s with
     | EmptyString => 0
     | String _ s' => occurrences p s'
     end)%nat.

Fixpoint all_digits (s : string) : bool :=
  match s with
  | EmptyString => true
  | String c r => JS.is_digit c && all_digits r
  end.

(** A tile coordinate as it arrives in the query: a non-empty run of
    decimal digits. *)
Definition tile_number (s : string) : bool :=
  match s with
  | EmptyString => false
  | String _ _ => all_digits s
  end.

(** [c] does not occur in [s]. *)
Fixpoint char_free (c : ascii) (s : string) : bool :=
  match s with
  | EmptyString => true
  | String d r => negb (Ascii.eqb d c) && char_free c r
  end.

(** A request the value handler takes as far as authentication. *)
Definition reaches_authentication (req : Net.Request) : bool :=
  negb (String.eqb (Net.method req) "OPTIONS") && has_numeric_coordinates req.

(** The key material is loaded exactly once while the process serves
    [reqs]. *)
Definition loaded_once (handler : Net.World -> Net.Request -> list Net.Event * Net.Response)
    (w : Net.World) (reqs : list Net.Request) : Prop :=
  Process.credential_loads (Process.process_trace (Process.serve handler w reqs)) = 1%nat.

(** The number zero. *)
Definition is_zero (v : JS.value) : Prop :=
  exists q, v = JS.Num (JS.Finite q) /\ (q == 0)%Q.

End Props.

(* ===================================================================== *)
(** * A small world to run the handlers in *)
(* ===================================================================== *)

Module Sample.
Import Net.

Definition almaty : EE.Geometry :=
  EE.Point (JS.Finite (1 * inject_Z 769 * / inject_Z 10))
           (JS.Finite (1 * inject_Z 432 * / inject_Z 10)).

(** A scene that covers every geometry and has the same pixel everywhere. *)
Definition scene (index : string) (time : Z) (cloudy : Q) (px : option EE.RawPixel)
  : EE.Image EE.RawPixel :=
  {| EE.system_index := index;
     EE.system_time_start := time;
     EE.CLOUDY_PIXEL_PERCENTAGE := cloudy;
     EE.intersects := fun _ => true;
     EE.pixel_at := fun _ => px |}.

Definition now : Z := 1700000000000.

Definition vegetated : EE.RawPixel := {| EE.B4 := 1000; EE.B8 := 3000; EE.QA60 := 0 |}.
Definition cloudy_pixel : EE.RawPixel := {| EE.B4 := 1000; EE.B8 := 3000; EE.QA60 := 1024 |}.
Definition dark_pixel : EE.RawPixel := {| EE.B4 := 0; EE.B8 := 0; EE.QA60 := 0 |}.

Definition older : EE.Image EE.RawPixel :=
  scene "20231101T060000" (now - 20 * EE.ms_per_day) 5 (Some vegetated).
Definition newer : EE.Image EE.RawPixel :=
  scene "20231111T060000" (now - 10 * EE.ms_per_day) 12 (Some vegetated).
Definition overcast : EE.Image EE.RawPixel :=
  scene "20231116T060000" (now - 5 * EE.ms_per_day) 80 (Some cloudy_pixel).
Definition newest_cloudy_here : EE.Image EE.RawPixel :=
  scene "20231118T060000" (now - 3 * EE.ms_per_day) 10 (Some cloudy_pixel).
Definition newest_dark_here : EE.Image EE.RawPixel :=
  scene "20231119T060000" (now - 2 * EE.ms_per_day) 10 (Some dark_pixel).

Definition template : string := "https://earthengine.example/v1/maps/abc/tiles/{z}/{x}/{y}".

Definition tile : UpstreamResponse :=
  {| statusCode := 200;
     upstream_headers := {[ "content-type" := "image/png" ]};
     upstream_body := "PNG" |}.

(** A world in which every service answers; the catalog and the answer
    of the backend on a null image are left open. *)
Definition world (catalog : list (EE.Image EE.RawPixel)) (null_failure : option string)
  : World :=
  {| env := {[ "GEE_PRIVATE_KEY_JSON" := "{}"; "GEE_PROJECT_ID" := "ndvi-demo";
               "OPENAI_API_KEY" := "sk-demo" ]};
     JSON_parse := fun s => inr (JS.Str s);
     authenticateViaPrivateKey := fun _ => None;
     initialize := fun _ => None;
     Date_now_first := now;
     Date_now_second := now;
     advance_month := fun t n => t + n * 30 * EE.ms_per_day;
     S2_SR_HARMONIZED := catalog;
     getMap := fun _ => (Some {| urlFormat := template |}, None);
     evaluate_failure := fun ev =>
       match ev with
       | EvaluateReduce _ (EE.Point JS.NaN _) _
       | EvaluateReduce _ (EE.Point _ JS.NaN) _ => Some "Invalid GeoJSON geometry."
       | _ => None
       end;
     null_image_failure := null_failure;
     url_parse := fun u => (Some "earthengine.example", Some u);
     https_request := fun _ => inr tile;
     createPromptForAgronomist := fun _ _ _ _ _ => inr "prompt";
     getOpenAiRecommendation := fun _ _ => inr "advice" |}.

Definition get (q : list (string * string)) : Request :=
  {| method := "GET";
     query := list_to_map q;
     headers := {[ "user-agent" := "Mozilla/5.0 (ndvi-map)" ]};
     body := JS.undefined |}.

Definition populated : World := world [older; newer] None.

Definition point_request : Request := get [("lat", "43.2"); ("lon", "76.9")].

Definition tile_request : Request := get [("z", "5"); ("x", "10"); ("y", "3")].

Definition post (b : JS.value) : Request :=
  {| method := "POST"; query := ∅; headers := ∅; body := b |}.

End Sample.

(* ===================================================================== *)
(** * The helpers of the recommendation handler *)
(* ===================================================================== *)

Module Advice.
Import Net.

(** ** interpretNdvi *)

(** [n < q] on numbers: false as soon as [n] is NaN. *)
Definition less_than (n : JS.number) (q : Q) : bool :=
  match n with
  | JS.NaN => false
  | JS.Infinity negative => negative
  | JS.Finite x => match (x ?= q)%Q with Lt => true | _ => false end
  end.

Definition very_low : string := "very low plant health or bare soil.".
Definition moderate : string :=
  "moderate plant health, potentially under stress or in early growth.".
Definition good : string := "good plant health.".
Definition very_high : string := "very high plant health and dense canopy.".

(** The doubles that the literals [0.2], [0.4] and [0.6] denote, as
    exact values: 0.2 and 0.4 round up, 0.6 rounds down. *)
Definition double_0_2 : Q := 3602879701896397 # 18014398509481984.
Definition double_0_4 : Q := 3602879701896397 # 9007199254740992.
Definition double_0_6 : Q := 5404319552844595 # 9007199254740992.

(** [ndvi] is the number the comparisons see; a finite one is the exact
    value of its double. *)
Definition interpretNdvi (ndvi : JS.number) : string :=
  if less_than ndvi double_0_2 then very_low
  else if less_than ndvi double_0_4 then moderate
  else if less_than ndvi double_0_6 then good
  else very_high.

(** ** getWeatherDescription *)

(** The object [codeCounts], for weather codes below 2^32 - 1: such
    keys are array indices and are kept, as [Object.keys] lists them, in
    ascending numeric order.  (Larger keys would follow in the order of
    their insertion; the statements that depend on the order of the keys
    are made for codes below the bound.) *)
Definition counts := list (N * nat).

(** [acc[code]], [None] for undefined. *)
Fixpoint lookup_count (acc : counts) (code : N) : option nat :=
  match acc with
  | [] => None
  | (k, n) :: rest => if (code =? k)%N then Some n else lookup_count rest code
  end.

(** [acc[code] = v]. *)
Fixpoint assign (acc : counts) (code : N) (v : nat) : counts :=
  match acc with
  | [] => [(code, v)]
  | (k, n) :: rest =>
      if (code =? k)%N then (k, v) :: rest
      else if (code <? k)%N then (code, v) :: (k, n) :: rest
      else (k, n) :: assign rest code v
  end.

(** [acc[code] = (acc[code] || 0) + 1; return acc]. *)
Definition tally (acc : counts) (code : N) : counts :=
  assign acc code
    (match lookup_count acc code with
     | Some n => match n with O => 0 | S _ => n end
     | None => 0
     end + 1)%nat.

Definition codeCounts (codes : list N) : counts := fold_left tally codes [].

Definition Object_keys (acc : counts) : list N := map fst acc.

(** [codeCounts[a] > codeCounts[b] ? a : b]; a comparison with
    undefined is false. *)
Definition more_frequent (acc : counts) (a b : N) : N :=
  match lookup_count acc a, lookup_count acc b with
  | Some na, Some nb => if (nb <? na)%nat then a else b
  | _, _ => b
  end.

(** [keys.reduce(f)] without an initial value: throws on no keys. *)
Definition mostFrequentCode (codes : list N) : option N :=
  let acc := codeCounts codes in
  match Object_keys acc with
  | [] => None
  | k :: keys => Some (fold_left (more_frequent acc) keys k)
  end.

Definition descriptions (code : N) : option string :=
  match code with
  | 0%N | 1%N => Some "clear skies"
  | 2%N => Some "partial clouds"
  | 3%N => Some "clouds"
  | 61%N | 63%N => Some "rain"
  | 65%N => Some "heavy rain"
  | 80%N | 81%N => Some "showers"
  | 82%N => Some "heavy showers"
  | 95%N => Some "thunderstorms"
  | _ => None
  end.

(** [None]: the TypeError of [reduce] on an empty array. *)
Definition getWeatherDescription (codes : list N) : option string :=
  match mostFrequentCode codes with
  | None => None
  | Some code =>
      Some (match descriptions code with
            | Some d => d
            | None => "varied conditions"
            end)
  end.

(** ** getOpenAiRecommendation: what is done with the answer *)

(** A parsed JSON text. *)
Inductive json :=
| JNull
| JBool (b : bool)
| JNum (n : JS.number)
| JStr (s : string)
| JArr (items : list json)
| JObj (fields : list (string * json)).

Fixpoint field (fields : list (string * json)) (k : string) : option json :=
  match fields with
  | [] => None
  | (k', v) :: rest => if String.eqb k k' then Some v else field rest k
  end.

(** [v.k] for a key that is neither an index nor [length]: [None] when
    reading the property throws (on null or undefined), [Some None] when
    it reads undefined. *)
Definition member (v : option json) (k : string) : option (option json) :=
  match v with
  | None | Some JNull => None
  | Some (JObj fields) => Some (field fields k)
  | Some _ => Some None
  end.

(** [v[0]]. *)
Definition first_item (v : option json) : option (option json) :=
  match v with
  | None | Some JNull => None
  | Some (JArr items) => Some (hd_error items)
  | Some (JObj fields) => Some (field fields "0")
  | Some (JStr (String c _)) => Some (Some (JStr (String c "")))
  | Some _ => Some None
  end.

Fixpoint trim_end (s : string) : string :=
  match s with
  | EmptyString => EmptyString
  | String c r =>
      match trim_end r with
      | EmptyString => if JS.StrWhiteSpaceChar c then EmptyString else String c EmptyString
      | r' => String c r'
      end
  end.

(** [s.trim()]. *)
Definition trim (s : string) : string := trim_end (JS.trim_start s).

(** [v.trim()]: only a string has the method. *)
Definition call_trim (v : option json) : option string :=
  match v with
  | Some (JStr s) => Some (trim s)
  | _ => None
  end.

(** [parsedData.choices[0].message.content.trim()]; [None] when any step
    throws. *)
Definition content_of (parsedData : json) : option string :=
  match member (Some parsedData) "choices" with
  | None => None
  | Some choices =>
      match first_item choices with
      | None => None
      | Some choice =>
          match member choice "message" with
          | None => None
          | Some message =>
              match member message "content" with
              | None => None
              | Some content => call_trim content
              end
          end
      end
  end.

(** What comes back for the request: the [error] event with its message,
    or a response with its status code and the chunks of its body in the
    order of the [data] events. *)
Inductive Answer :=
| RequestError (message : string)
| Answered (statusCode : Z) (chunks : list string).

Section Settle.

(** [JSON.parse]: [None] when it throws. *)
Variable JSON_parse : string -> option json.

(** [data += chunk] for every chunk. *)
Definition collect (chunks : list string) : string :=
  fold_left (fun data chunk => data +:+ chunk) chunks "".

Definition parse_failure : string := "Failed to parse OpenAI response.".

(** How the promise of [getOpenAiRecommendation] settles. *)
Definition settle (answer : Answer) : outcome string :=
  match answer with
  | RequestError message =>
      Rejected (Error ("Request to OpenAI API failed: " +:+ message))
  | Answered statusCode chunks =>
      let data := collect chunks in
      if (200 <=? statusCode) && (statusCode <? 300) then
        match JSON_parse data with
        | Some parsedData =>
            match content_of parsedData with
            | Some text => Resolved text
            | None => Rejected (Error parse_failure)
            end
        | None => Rejected (Error parse_failure)
        end
      else
        Rejected (Error ("OpenAI API request failed with status "
                         +:+ pretty statusCode +:+ ": " +:+ data))
  end.

End Settle.

End Advice.

(* ===================================================================== *)
(** * Further notions used by the statements *)
(* ===================================================================== *)

Module Notions.
Import Net.

(** The calls that need an established session. *)
Definition is_query (ev : Event) : bool :=
  match ev with
  | GetMap _ _ _ | EvaluateIndex | EvaluateReduce _ _ _ | HttpsRequest _ => true
  | _ => false
  end.

Definition is_openai_request (ev : Event) : bool :=
  match ev with
  | OpenAiRequest _ _ => true
  | _ => false
  end.

(** The four fields the recommendation handler asks for are truthy. *)
Definition has_required_data (b : JS.value) : bool :=
  match b with
  | JS.Obj fields =>
      JS.ToBoolean (JS.get fields "lat") && JS.ToBoolean (JS.get fields "lon")
      && JS.ToBoolean (JS.get fields "ndvi") && JS.ToBoolean (JS.get fields "weatherData")
  | _ => false
  end.

(** [c] is the most frequent code of [codes]; among equally frequent
    codes it is the largest. *)
Definition dominant (codes : list N) (c : N) : Prop :=
  In c codes
  /\ forall d, In d codes ->
       (count_occ N.eq_dec codes d <= count_occ N.eq_dec codes c)%nat
       /\ (count_occ N.eq_dec codes d = count_occ N.eq_dec codes c -> (d <= c)%N).

(** The four texts of [interpretNdvi], from the lowest to the highest. *)
Definition ndvi_class (text : string) : nat :=
  if String.eqb text Advice.very_low then 0
  else if String.eqb text Advice.moderate then 1
  else if String.eqb text Advice.good then 2
  else 3.

(** The text starts with white space. *)
Definition starts_blank (s : string) : bool :=
  match s with
  | String c _ => JS.StrWhiteSpaceChar c
  | EmptyString => false
  end.

(** The five handlers that talk to the geospatial backend. *)
Definition gee_handlers : list (World -> Request -> list Event * Response) :=
  [TileRedirect.handler; TileProxy.handler; TileLegacy.handler;
   Value.handler; ValueLegacy.handler].

(** The three handlers of the current tile and point-value endpoints. *)
Definition credential_handlers : list (World -> Request -> list Event * Response) :=
  [TileRedirect.handler; TileProxy.handler; Value.handler].

Definition is_project_read (ev : Event) : bool :=
  match ev with
  | EnvRead name => String.eqb name "GEE_PROJECT_ID"
  | _ => false
  end.

(** How many times a trace reads the project identifier. *)
Definition project_reads (t : list Event) : nat :=
  length (List.filter is_project_read t).

(** The key as a request finds it in the environment of the process. *)
Definition parsed_key (w : World) : string + JS.value :=
  JSON_parse w (JS.ToString (env w !! "GEE_PRIVATE_KEY_JSON")).

(** A call that hands credentials to the backend hands over those of
    the process environment. *)
Definition uses_process_credentials (w : World) (ev : Event) : Prop :=
  match ev with
  | AuthenticateViaPrivateKey key => parsed_key w = inr key
  | Initialize project => project = env w !! "GEE_PROJECT_ID"
  | _ => True
  end.

(** Nothing is called, or the first call is the read of the key. *)
Definition starts_with_key_read (t : list Event) : Prop :=
  t = [] \/ exists rest, t = EnvRead "GEE_PRIVATE_KEY_JSON" :: rest.

(** The calls after authentication: no read of the environment, no
    hand-over of credentials. *)
Definition is_session_event (ev : Event) : bool :=
  match ev with
  | EnvRead _ | AuthenticateViaPrivateKey _ | Initialize _ => true
  | _ => false
  end.

(** The text ends with white space. *)
Fixpoint ends_blank (s : string) : bool :=
  match s with
  | EmptyString => false
  | String c EmptyString => JS.StrWhiteSpaceChar c
  | String _ r => ends_blank r
  end.

End Notions.

(* ===================================================================== *)
(** * More sample data *)
(* ===================================================================== *)

Module Demo.
Import Net.

(** Two weeks of weather codes: rain on five days, clear sky on five. *)
Definition forecast : list N :=
  [61; 0; 0; 3; 61; 61; 0; 2; 61; 0; 80; 61; 0; 3]%N.

Definition completion : Advice.json :=
  Advice.JObj
    [("id", Advice.JStr "chatcmpl-1");
     ("choices",
      Advice.JArr
        [Advice.JObj
           [("index", Advice.JNum (JS.Finite 0));
            ("message",
             Advice.JObj [("role", Advice.JStr "assistant");
                          ("content", Advice.JStr "  Irrigate on Friday. ")])]])].

(** A parser that knows one text. *)
Definition parse_one (s : string) : option Advice.json :=
  if String.eqb s "{completion}" then Some completion else None.

(** A world whose backend refuses the credentials. *)
Definition refusing : World :=
  {| env := env Sample.populated;
     JSON_parse := JSON_parse Sample.populated;
     authenticateViaPrivateKey := fun _ => Some "invalid_grant";
     initialize := initialize Sample.populated;
     Date_now_first := Date_now_first Sample.populated;
     Date_now_second := Date_now_second Sample.populated;
     advance_month := advance_month Sample.populated;
     S2_SR_HARMONIZED := S2_SR_HARMONIZED Sample.populated;
     getMap := getMap Sample.populated;
     evaluate_failure := evaluate_failure Sample.populated;
     null_image_failure := null_image_failure Sample.populated;
     url_parse := url_parse Sample.populated;
     https_request := https_request Sample.populated;
     createPromptForAgronomist := createPromptForAgronomist Sample.populated;
     getOpenAiRecommendation := getOpenAiRecommendation Sample.populated |}.

(** A world in which the tile server cannot be reached. *)
Definition unreachable : World :=
  {| env := env Sample.populated;
     JSON_parse := JSON_parse Sample.populated;
     authenticateViaPrivateKey := authenticateViaPrivateKey Sample.populated;
     initialize := initialize Sample.populated;
     Date_now_first := Date_now_first Sample.populated;
     Date_now_second := Date_now_second Sample.populated;
     advance_month := advance_month Sample.populated;
     S2_SR_HARMONIZED := S2_SR_HARMONIZED Sample.populated;
     getMap := getMap Sample.populated;
     evaluate_failure := evaluate_failure Sample.populated;
     null_image_failure := null_image_failure Sample.populated;
     url_parse := url_parse Sample.populated;
     https_request := fun _ => inl "ECONNRESET";
     createPromptForAgronomist := createPromptForAgronomist Sample.populated;
     getOpenAiRecommendation := getOpenAiRecommendation Sample.populated |}.

(** A world without an API key for the text-generation service. *)
Definition keyless : World :=
  {| env := {[ "GEE_PRIVATE_KEY_JSON" := "{}"; "GEE_PROJECT_ID" := "ndvi-demo" ]};
     JSON_parse := JSON_parse Sample.populated;
     authenticateViaPrivateKey := authenticateViaPrivateKey Sample.populated;
     initialize := initialize Sample.populated;
     Date_now_first := Date_now_first Sample.populated;
     Date_now_second := Date_now_second Sample.populated;
     advance_month := advance_month Sample.populated;
     S2_SR_HARMONIZED := S2_SR_HARMONIZED Sample.populated;
     getMap := getMap Sample.populated;
     evaluate_failure := evaluate_failure Sample.populated;
     null_image_failure := null_image_failure Sample.populated;
     url_parse := url_parse Sample.populated;
     https_request := https_request Sample.populated;
     createPromptForAgronomist := createPromptForAgronomist Sample.populated;
     getOpenAiRecommendation := getOpenAiRecommendation Sample.populated |}.

(** A world in which the backend cannot render the map. *)
Definition mapless : World :=
  {| env := env Sample.populated;
     JSON_parse := JSON_parse Sample.populated;
     authenticateViaPrivateKey := authenticateViaPrivateKey Sample.populated;
     initialize := initialize Sample.populated;
     Date_now_first := Date_now_first Sample.populated;
     Date_now_second := Date_now_second Sample.populated;
     advance_month := advance_month Sample.populated;
     S2_SR_HARMONIZED := S2_SR_HARMONIZED Sample.populated;
     getMap := fun _ => (None, Some "Image.visualize: no bands.");
     evaluate_failure := evaluate_failure Sample.populated;
     null_image_failure := null_image_failure Sample.populated;
     url_parse := url_parse Sample.populated;
     https_request := https_request Sample.populated;
     createPromptForAgronomist := createPromptForAgronomist Sample.populated;
     getOpenAiRecommendation := getOpenAiRecommendation Sample.populated |}.

Definition advice_request : Request :=
  Sample.post (JS.Obj [("lat", JS.Num (JS.Finite (432 # 10)));
                       ("lon", JS.Num (JS.Finite (769 # 10)));
                       ("ndvi", JS.Num (JS.Finite (5 # 10)));
                       ("weatherData", JS.Obj [])]).

End Demo.

(* ===================================================================== *)
(** * Theorems *)
(* ===================================================================== *)

(** ** The JavaScript fragment on small inputs *)

Example parseFloat_decimal :
  JS.parseFloat (Some "43.25") = JS.Finite (1 * inject_Z 4325 * / inject_Z 100)%Q.
Proof. reflexivity. Qed.

Example parseFloat_word : JS.parseFloat (Some "abc") = JS.NaN.
Proof. reflexivity. Qed.

Example parseFloat_absent : JS.parseFloat None = JS.NaN.
Proof. reflexivity. Qed.

Example parseFloat_prefix :
  JS.parseFloat (Some " -12abc") = JS.Finite (- (1) * inject_Z 12 * inject_Z 1)%Q.
Proof. reflexivity. Qed.

(** A no-break space (bytes 194, 160) before the number is skipped. *)
Example parseFloat_no_break_space :
  JS.parseFloat (Some (String (ascii_of_N 194) (String (ascii_of_N 160) "43.25")))
  = JS.parseFloat (Some "43.25").
Proof. reflexivity. Qed.

Example parseFloat_overflow : JS.parseFloat (Some "-1e999") = JS.Infinity true.
Proof. vm_compute. reflexivity. Qed.

Example replace_first_only : JS.replace "a{x}b{x}" "{x}" (Some "7") = "a7b{x}".
Proof. reflexivity. Qed.

Example replace_dollar :
  JS.replace "a{x}b" "{x}" (Some "[$&|$$|$`|$'|$1]") = "a[{x}|$|a|b|$1]b".
Proof. reflexivity. Qed.

(** ** The cloud mask *)

Section CloudMask.

(** Masking with a single bit tests that bit. *)
Lemma land_bit_zero (qa n : Z) :
  0 <= n -> (Z.land qa (Z.shiftl 1 n) = 0 <-> Z.testbit qa n = false).
Proof.
  intros Hn. rewrite Z.shiftl_1_l. split.
  - intros H.
    assert (E : Z.testbit (Z.land qa (2 ^ n)) n = false)
      by (rewrite H; apply Z.bits_0).
    rewrite Z.land_spec, Z.pow2_bits_true in E by assumption.
    now rewrite andb_true_r in E.
  - intros H. apply Z.bits_inj'. intros m Hm.
    rewrite Z.land_spec, Z.bits_0, Z.pow2_bits_eqb by assumption.
    destruct (Z.eqb_spec n m) as [->|_].
    + now rewrite H.
    + apply andb_false_r.
Qed.

Lemma cloud_mask_spec (qa : Z) :
  EE.cloud_mask qa <> 0 <->
  Z.testbit qa 10 = false /\ Z.testbit qa 11 = false.
Proof.
  unfold EE.cloud_mask, EE.and_, EE.eq_, EE.bitwiseAnd,
    EE.cloudBitMask, EE.cirrusBitMask.
  rewrite <- (land_bit_zero qa 10), <- (land_bit_zero qa 11) by lia.
  destruct (Z.eqb_spec (Z.land qa (Z.shiftl 1 10)) 0) as [E1|E1];
    destruct (Z.eqb_spec (Z.land qa (Z.shiftl 1 11)) 0) as [E2|E2];
    cbn; intuition congruence.
Qed.

(** C1.  Whatever the quality flags of a pixel are, [maskS2clouds] keeps
    the pixel exactly when bit 10 (opaque cloud) and bit 11 (cirrus) are
    both zero, and a pixel it keeps carries every raw band value divided
    by 10000. *)
Theorem C1_cloud_mask_bits_and_scaling (p : EE.RawPixel) :
  (EE.maskS2clouds_pixel p <> None <->
     Z.testbit (EE.QA60 p) 10 = false /\ Z.testbit (EE.QA60 p) 11 = false)
  /\ (forall kept, EE.maskS2clouds_pixel p = Some kept ->
        EE.b4 kept = (inject_Z (EE.B4 p) / inject_Z 10000)%Q
        /\ EE.b8 kept = (inject_Z (EE.B8 p) / inject_Z 10000)%Q
        /\ EE.qa60 kept = (inject_Z (EE.QA60 p) / inject_Z 10000)%Q).
Proof.
  unfold EE.maskS2clouds_pixel, EE.updateMask. split.
  - rewrite <- cloud_mask_spec.
    destruct (Z.eqb_spec (EE.cloud_mask (EE.QA60 p)) 0) as [E|E];
      split; intros H; congruence.
  - intros kept.
    destruct (EE.cloud_mask (EE.QA60 p) =? 0); [discriminate|].
    intros [= <-]. now cbn.
Qed.

(** The same at the level of images: the other bits of the flags are
    irrelevant. *)
Lemma maskS2clouds_pixel_at (image : EE.Image EE.RawPixel) (g : EE.Geometry) :
  EE.pixel_at (EE.maskS2clouds image) g =
  match EE.pixel_at image g with
  | Some p => EE.maskS2clouds_pixel p
  | None => None
  end.
Proof. reflexivity. Qed.

Example cloud_mask_clear : EE.cloud_mask 0 = 1.
Proof. reflexivity. Qed.

Example cloud_mask_opaque : EE.cloud_mask 1024 = 0.
Proof. reflexivity. Qed.

Example cloud_mask_cirrus : EE.cloud_mask 2048 = 0.
Proof. reflexivity. Qed.

Example cloud_mask_other_bits : EE.cloud_mask (65535 - 1024 - 2048) = 1.
Proof. reflexivity. Qed.

End CloudMask.

(** ** The composite *)

Section Composite.

Context {P : Type}.

Abbreviation time := (@EE.system_time_start P).
Abbreviation head_latest := (@Props.head_latest P).

Lemma insert_desc_In (x y : EE.Image P) (l : list (EE.Image P)) :
  In y (EE.insert_desc x l) <-> y = x \/ In y l.
Proof.
  induction l as [|h l IH]; cbn.
  - intuition.
  - destruct (time x <? time h); cbn; rewrite ?IH; intuition.
Qed.

Lemma sort_desc_In (y : EE.Image P) (l : list (EE.Image P)) :
  In y (EE.sort_desc l) <-> In y l.
Proof.
  induction l as [|h l IH]; cbn.
  - reflexivity.
  - rewrite insert_desc_In, IH. intuition.
Qed.

Lemma insert_desc_head_latest (x : EE.Image P) (l : list (EE.Image P)) :
  head_latest l -> head_latest (EE.insert_desc x l).
Proof.
  destruct l as [|h l]; cbn.
  - intros _ y [->|[]]. lia.
  - intros H. destruct (Z.ltb_spec (time x) (time h)) as [Hlt|Hge]; cbn.
    + intros y [->|Hy]; [lia|].
      apply insert_desc_In in Hy as [->|Hy]; [lia|].
      apply H. now right.
    + intros y [->|Hy]; [lia|].
      specialize (H y Hy). lia.
Qed.

Lemma sort_desc_head_latest (l : list (EE.Image P)) :
  head_latest (EE.sort_desc l).
Proof.
  induction l as [|h l IH]; cbn; [exact I|].
  now apply insert_desc_head_latest.
Qed.

Lemma sort_desc_nonempty (l : list (EE.Image P)) :
  l <> [] -> EE.sort_desc l <> [].
Proof.
  destruct l as [|h l]; [congruence|]. intros _ E.
  assert (In h (EE.sort_desc (h :: l))) as Hin by (apply sort_desc_In; now left).
  rewrite E in Hin. destruct Hin.
Qed.

Lemma first_sort_desc (l : list (EE.Image P)) :
  l <> [] ->
  exists chosen,
    EE.first (EE.sort_desc l) = Some chosen
    /\ In chosen l
    /\ forall other, In other l -> time other <= time chosen.
Proof.
  intros Hne. pose proof (sort_desc_nonempty l Hne) as Hs.
  pose proof (sort_desc_head_latest l) as Hh.
  pose proof (fun y => sort_desc_In y l) as Hin.
  destruct (EE.sort_desc l) as [|h s]; [congruence|].
  exists h. split; [reflexivity|]. split.
  - apply Hin. now left.
  - intros other Ho. apply Hh. now apply Hin.
Qed.

End Composite.


(** The composites of the handlers are instances of it. *)
Lemma Value_composite_is_latest (w : Net.World) (point : EE.Geometry) :
  Value.candidates w point <> [] ->
  exists chosen,
    Value.composite w point = Some chosen
    /\ forall other, In other (Value.candidates w point) ->
         EE.system_time_start other <= EE.system_time_start chosen.
Proof.
  intros H. destruct (first_sort_desc (map EE.maskS2clouds (Value.candidates w point)))
    as (chosen & Hf & _ & Hmax).
  - destruct (Value.candidates w point); [congruence|discriminate].
  - exists chosen. split; [exact Hf|].
    intros other Ho. apply (Hmax (EE.maskS2clouds other)). now apply in_map.
Qed.

Lemma TileRedirect_recentImage_is_latest (w : Net.World) :
  TileRedirect.candidates w <> [] ->
  exists chosen,
    TileRedirect.recentImage w = Some chosen
    /\ forall other, In other (TileRedirect.candidates w) ->
         EE.system_time_start other <= EE.system_time_start chosen.
Proof.
  intros H. destruct (first_sort_desc (map EE.maskS2clouds (TileRedirect.candidates w)))
    as (chosen & Hf & _ & Hmax).
  - destruct (TileRedirect.candidates w); [congruence|discriminate].
  - exists chosen. split; [exact Hf|].
    intros other Ho. apply (Hmax (EE.maskS2clouds other)). now apply in_map.
Qed.


Example composite_sample :
  option_map EE.system_index (Value.composite
     (Sample.world [Sample.older; Sample.newer; Sample.overcast] None) Sample.almaty)
  = Some "20231111T060000".
Proof. vm_compute. reflexivity. Qed.

(** ** NDVI *)

Section NDVI.
Import Net.

Lemma normalized_difference_defined (nir red : Q) :
  ~ (nir + red == 0)%Q ->
  EE.normalized_difference nir red = Some ((nir - red) / (nir + red))%Q.
Proof.
  intros H. unfold EE.normalized_difference.
  destruct (Qeq_bool (nir + red) 0) eqn:E; [|reflexivity].
  apply Qeq_bool_iff in E. contradiction.
Qed.

Lemma normalized_difference_undefined (nir red : Q) :
  (nir + red == 0)%Q -> EE.normalized_difference nir red = None.
Proof.
  intros H. unfold EE.normalized_difference.
  apply Qeq_bool_iff in H. now rewrite H.
Qed.

(** When the backend answers and the composite has an index, a pixel
    without NDVI under the point makes [runAnalysis] reject with the
    message for a location without data. *)
Lemma runAnalysis_no_data (w : World) (lat lon : JS.number) (img : EE.Image EE.Pixel) :
  evaluate_failure w EvaluateIndex = None ->
  evaluate_failure w (EvaluateReduce Reducer_first (EE.Point lon lat) 10) = None ->
  Value.composite w (EE.Point lon lat) = Some img ->
  EE.system_index img <> "" ->
  EE.pixel_at (EE.normalizedDifference_B8_B4 img) (EE.Point lon lat) = None ->
  Value.runAnalysis w lat lon =
    ([EvaluateIndex; EvaluateReduce Reducer_first (EE.Point lon lat) 10],
     Rejected (Error Value.no_data_message)).
Proof.
  intros Hf Hr Hc Hi Hp. unfold Value.runAnalysis, evaluate_index, evaluate_reduce.
  rewrite Hc, Hf, Hr. cbn [EE.ndvi_of]. rewrite Hp.
  assert (String.eqb (EE.system_index img) "" = false) as E
    by now apply String.eqb_neq.
  cbn. rewrite E. reflexivity.
Qed.

(** C3.  The NDVI band is (NIR - Red) / (NIR + Red) with NIR read from B8
    and Red from B4; NDVI(0.5, 0.5) is 0 and NDVI(0.3, 0) is 1; where
    NIR + Red is 0 the pixel has no NDVI, and a point query on such a
    pixel ends in the error for a location without data, not in a success
    that carries 0. *)
Theorem C3_ndvi_formula_and_no_data
    (w : World) (lat lon : JS.number) (img : EE.Image EE.Pixel) (p : EE.Pixel) :
  (~ (EE.b8 p + EE.b4 p == 0)%Q ->
     EE.ndvi_pixel p = Some ((EE.b8 p - EE.b4 p) / (EE.b8 p + EE.b4 p))%Q)
  /\ (exists v, EE.normalized_difference (5 # 10) (5 # 10) = Some v /\ (v == 0)%Q)
  /\ (exists v, EE.normalized_difference (3 # 10) 0 = Some v /\ (v == 1)%Q)
  /\ ((EE.b8 p + EE.b4 p == 0)%Q -> EE.ndvi_pixel p = None)
  /\ ((EE.b8 p + EE.b4 p == 0)%Q ->
      evaluate_failure w EvaluateIndex = None ->
      evaluate_failure w (EvaluateReduce Reducer_first (EE.Point lon lat) 10) = None ->
      Value.composite w (EE.Point lon lat) = Some img ->
      EE.system_index img <> "" ->
      EE.pixel_at img (EE.Point lon lat) = Some p ->
      snd (Value.runAnalysis w lat lon) = Rejected (Error Value.no_data_message)
      /\ snd (Value.runAnalysis w lat lon)
           <> Resolved (JS.Obj [("ndvi", JS.Num (JS.Finite 0))])).
Proof.
  split; [apply normalized_difference_defined|].
  split; [eexists; split; [reflexivity|reflexivity]|].
  split; [eexists; split; [reflexivity|reflexivity]|].
  split; [apply normalized_difference_undefined|].
  intros Hz Hf Hr Hc Hi Hp.
  rewrite (runAnalysis_no_data w lat lon img Hf Hr Hc Hi).
  - split; [reflexivity|discriminate].
  - cbn. rewrite Hp. now apply normalized_difference_undefined.
Qed.

Lemma C3_ndvi_formula_and_no_data_witness :
  let w := Sample.world [Sample.older; Sample.newest_dark_here] None in
  let lat := JS.Finite (1 * inject_Z 432 * / inject_Z 10) in
  let lon := JS.Finite (1 * inject_Z 769 * / inject_Z 10) in
  snd (Value.runAnalysis w lat lon) = Rejected (Error Value.no_data_message)
  /\ snd (Value.runAnalysis w lat lon)
       <> Resolved (JS.Obj [("ndvi", JS.Num (JS.Finite 0))]).
Proof.
  intros w lat lon.
  apply (proj2 (proj2 (proj2 (proj2
           (C3_ndvi_formula_and_no_data w lat lon
              (EE.maskS2clouds Sample.newest_dark_here)
              (EE.divide Sample.dark_pixel 10000)))))).
  - vm_compute. reflexivity.
  - reflexivity.
  - reflexivity.
  - vm_compute. reflexivity.
  - discriminate.
  - reflexivity.
Defined.

Example ndvi_vegetated :
  option_map Qred (EE.ndvi_pixel (EE.divide Sample.vegetated 10000)) = Some (1 # 2)%Q.
Proof. reflexivity. Qed.

End NDVI.

(** ** The point-value handlers *)

Section PointValue.
Import Net.

Lemma authenticate_ok (w : World) (on_auth_error : string -> thrown) (key : JS.value) :
  Props.session_ok w key ->
  authenticate w on_auth_error = (Props.session_events w key, Resolved tt).
Proof.
  intros (Hk & Ha & Hi). unfold authenticate. cbn. rewrite Hk. cbn.
  rewrite Ha. cbn. now rewrite Hi.
Qed.

(** The pre-flight of [runAnalysis]: with no qualifying image the promise
    is rejected after the existence check alone, whatever the backend
    answers on the null image; the reduction is never asked for. *)
Lemma Value_runAnalysis_no_image (w : World) (lat lon : JS.number) :
  Value.candidates w (EE.Point lon lat) = [] ->
  Value.runAnalysis w lat lon =
    ([EvaluateIndex], Rejected (Error Value.no_image_message)).
Proof.
  intros Hc. unfold Value.runAnalysis, Value.composite, evaluate_index.
  rewrite Hc. cbn.
  destruct (evaluate_failure w EvaluateIndex) as [e|]; cbn.
  - now rewrite orb_true_r.
  - destruct (null_image_failure w) as [e|]; cbn; now rewrite ?orb_true_r.
Qed.

(** The existence check comes first in every run of [runAnalysis]. *)
Lemma Value_runAnalysis_preflight_first (w : World) (lat lon : JS.number) :
  exists rest, fst (Value.runAnalysis w lat lon) = EvaluateIndex :: rest.
Proof.
  unfold Value.runAnalysis. cbn.
  destruct (evaluate_index w _) as [id err].
  destruct (JS.ToBoolean (JS.of_param err) || negb (JS.ToBoolean id)); cbn.
  - now eexists.
  - destruct (evaluate_reduce w _ _ _ _) as [result error].
    destruct (JS.ToBoolean (JS.of_param error)); [now eexists|].
    destruct (Value.is_missing result); now eexists.
Qed.

(** A reduction without a value is the error for a location without
    data, never a success. *)
Lemma Value_runAnalysis_no_value (w : World) (lat lon : JS.number) (id result : JS.value) :
  evaluate_index w (Value.composite w (EE.Point lon lat)) = (id, None) ->
  JS.ToBoolean id = true ->
  evaluate_reduce w Reducer_first (EE.ndvi_of (Value.composite w (EE.Point lon lat)))
    (EE.Point lon lat) 10 = (result, None) ->
  Value.is_missing result = true ->
  Value.runAnalysis w lat lon =
    ([EvaluateIndex; EvaluateReduce Reducer_first (EE.Point lon lat) 10],
     Rejected (Error Value.no_data_message)).
Proof.
  intros Hi Hid Hr Hm. unfold Value.runAnalysis. cbn.
  rewrite Hi. cbn. rewrite Hid. cbn. rewrite Hr. cbn. now rewrite Hm.
Qed.

(** Missing or non-numeric coordinates: the answer is 400 and nothing
    outside the handler was called. *)
Lemma Value_handler_invalid_coordinates (w : World) (req : Request) :
  String.eqb (method req) "OPTIONS" = false ->
  Props.has_numeric_coordinates req = false ->
  Value.handler w req =
    ([], json 400 Value.cors (JS.Obj [("error", JS.Str "Invalid or missing coordinates.")])).
Proof.
  intros Hm Hc. unfold Value.handler. rewrite Hm.
  unfold Props.has_numeric_coordinates in Hc. apply negb_false_iff in Hc.
  now rewrite Hc.
Qed.

Lemma Value_handler_no_image (w : World) (req : Request) (key : JS.value) :
  String.eqb (method req) "OPTIONS" = false ->
  Props.has_numeric_coordinates req = true ->
  Props.session_ok w key ->
  Value.candidates w (EE.Point (JS.parseFloat (query req !! "lon"))
                               (JS.parseFloat (query req !! "lat"))) = [] ->
  Value.handler w req =
    ((Props.session_events w key ++ [EvaluateIndex])%list,
     json 500 Value.cors (JS.Obj [("error", JS.Str Value.no_image_message)])).
Proof.
  intros Hm Hc Hs He. unfold Value.handler. rewrite Hm.
  unfold Props.has_numeric_coordinates in Hc. apply negb_true_iff in Hc.
  rewrite Hc. unfold Value.authenticateAndInitialize.
  rewrite (authenticate_ok w _ key Hs).
  unfold bind at 1. rewrite (Value_runAnalysis_no_image _ _ _ He).
  reflexivity.
Qed.

Lemma Value_handler_no_value (w : World) (req : Request) (key id result : JS.value) :
  let lat := JS.parseFloat (query req !! "lat") in
  let lon := JS.parseFloat (query req !! "lon") in
  String.eqb (method req) "OPTIONS" = false ->
  Props.has_numeric_coordinates req = true ->
  Props.session_ok w key ->
  evaluate_index w (Value.composite w (EE.Point lon lat)) = (id, None) ->
  JS.ToBoolean id = true ->
  evaluate_reduce w Reducer_first (EE.ndvi_of (Value.composite w (EE.Point lon lat)))
    (EE.Point lon lat) 10 = (result, None) ->
  Value.is_missing result = true ->
  Value.handler w req =
    ((Props.session_events w key
        ++ [EvaluateIndex; EvaluateReduce Reducer_first (EE.Point lon lat) 10])%list,
     json 500 Value.cors (JS.Obj [("error", JS.Str Value.no_data_message)])).
Proof.
  intros lat lon Hm Hc Hs Hi Hid Hr Hmiss. subst lat lon.
  unfold Value.handler. rewrite Hm.
  unfold Props.has_numeric_coordinates in Hc. apply negb_true_iff in Hc.
  rewrite Hc. unfold Value.authenticateAndInitialize.
  rewrite (authenticate_ok w _ key Hs).
  unfold bind at 1.
  rewrite (Value_runAnalysis_no_value w _ _ id result Hi Hid Hr Hmiss).
  reflexivity.
Qed.

(** The legacy handler never asks for the index of the composite: it has
    no existence check. *)
Lemma ValueLegacy_no_preflight (w : World) (req : Request) :
  ~ In EvaluateIndex (fst (ValueLegacy.handler w req)).
Proof.
  unfold ValueLegacy.handler, ValueLegacy.initializeEe, TileLegacy.initializeEe,
    ValueLegacy.evaluate, authenticate.
  destruct (negb _ || negb _); cbn; [tauto|].
  destruct (JSON_parse w _); cbn; [intuition discriminate|].
  destruct (authenticateViaPrivateKey w _); cbn; [intuition discriminate|].
  destruct (initialize w _); cbn; [intuition discriminate|].
  destruct (evaluate_reduce w _ _ _ _) as [result error].
  destruct (JS.ToBoolean (JS.of_param error)); cbn; intuition discriminate.
Qed.

(** What the legacy handler does with a request that has both
    coordinates as non-empty texts, numeric or not: it establishes the
    session, asks for the reduction and answers 200 with whatever value
    the reduction gave, null included. *)
Lemma ValueLegacy_handler_relays_result
    (w : World) (req : Request) (key : JS.value) (lat lng : string) (result : JS.value) :
  query req !! "lat" = Some lat -> lat <> "" ->
  query req !! "lng" = Some lng -> lng <> "" ->
  Props.session_ok w key ->
  evaluate_reduce w Reducer_mean (ValueLegacy.getNdviImage w)
    (EE.Point (JS.parseFloat (Some lng)) (JS.parseFloat (Some lat))) 10 = (result, None) ->
  ValueLegacy.handler w req =
    ((Props.session_events w key
        ++ [EvaluateReduce Reducer_mean
              (EE.Point (JS.parseFloat (Some lng)) (JS.parseFloat (Some lat))) 10])%list,
     json 200 ∅ (JS.Obj [("ndvi", result)])).
Proof.
  intros Hlat Hlat' Hlng Hlng' Hs Hr. unfold ValueLegacy.handler.
  rewrite Hlat, Hlng. cbn [JS.of_param JS.ToBoolean].
  apply String.eqb_neq in Hlat', Hlng'. rewrite Hlat', Hlng'. cbn [negb orb].
  unfold ValueLegacy.initializeEe, TileLegacy.initializeEe.
  rewrite (authenticate_ok w _ key Hs).
  unfold bind at 1. unfold ValueLegacy.evaluate. rewrite Hr. reflexivity.
Qed.

End PointValue.

Section LegacyPointValue.
Import Net.

(** C4.  The specification asks that a point query over a window without any
    qualifying image ends in the error for a missing image, found by an
    existence check made before the reduction.  The legacy handler has no
    such check: on an empty catalog it goes straight to the reduction and
    answers with a success carrying null when the backend reduces the
    null image to null, and with its generic failure when the backend
    reports an error; the other handler answers the same request with
    the error for a missing image. *)
Theorem C4_legacy_handler_skips_preflight :
  let req := Sample.get [("lat", "43.2"); ("lng", "76.9"); ("lon", "76.9")] in
  let backend_error := "Image.normalizedDifference: Parameter 'input' is required." in
  snd (ValueLegacy.handler (Sample.world [] None) req)
    = json 200 ∅ (JS.Obj [("ndvi", JS.null)])
  /\ snd (ValueLegacy.handler (Sample.world [] (Some backend_error)) req)
    = json 500 ∅ (JS.Obj [("error", JS.Str "Failed to get GEE value.");
                          ("details", JS.Str backend_error)])
  /\ List.filter Props.is_backend_call (fst (ValueLegacy.handler (Sample.world [] None) req))
    = [AuthenticateViaPrivateKey (JS.Str "{}"); Initialize (Some "ndvi-demo");
       EvaluateReduce Reducer_mean
         (EE.Point (JS.parseFloat (Some "76.9")) (JS.parseFloat (Some "43.2"))) 10]
  /\ snd (Value.handler (Sample.world [] None) req)
    = json 500 Value.cors (JS.Obj [("error", JS.Str Value.no_image_message)]).
Proof. vm_compute. repeat split; reflexivity. Qed.

(** C5.  The specification asks that a reduction without a value ends in the
    error for a location without data and never in a success carrying
    null.  The most recent scene is cloud-flagged at the point, so the
    reduction gives null: the legacy handler answers 200 with
    [{ndvi: null}], where the other handler answers with the error. *)
Theorem C5_legacy_handler_returns_null_as_success :
  let req := Sample.get [("lat", "43.2"); ("lng", "76.9"); ("lon", "76.9")] in
  let w := Sample.world [Sample.older; Sample.newest_cloudy_here] None in
  snd (ValueLegacy.handler w req) = json 200 ∅ (JS.Obj [("ndvi", JS.null)])
  /\ snd (Value.handler w req)
     = json 500 Value.cors (JS.Obj [("error", JS.Str Value.no_data_message)]).
Proof. vm_compute. split; reflexivity. Qed.

(** C7.  The specification asks that non-numeric coordinates are refused with a
    400 before the session is established.  The legacy handler only
    tests that [lat] and [lng] are present: with the texts "abc" and
    "def" it authenticates, initializes and asks the backend for a
    reduction at a point whose coordinates are NaN, and answers 500; the
    other handler answers 400 without calling anything. *)
Theorem C7_legacy_handler_authenticates_on_non_numeric :
  let req := Sample.get [("lat", "abc"); ("lng", "def"); ("lon", "def")] in
  let w := Sample.world [Sample.older; Sample.newer] None in
  fst (ValueLegacy.handler w req)
    = [EnvRead "GEE_PRIVATE_KEY_JSON"; EnvRead "GEE_PROJECT_ID";
       AuthenticateViaPrivateKey (JS.Str "{}"); Initialize (Some "ndvi-demo");
       EvaluateReduce Reducer_mean (EE.Point JS.NaN JS.NaN) 10]
  /\ status (snd (ValueLegacy.handler w req)) = 500
  /\ Value.handler w req
     = ([], json 400 Value.cors (JS.Obj [("error", JS.Str "Invalid or missing coordinates.")])).
Proof. vm_compute. repeat split; reflexivity. Qed.

(** On missing coordinates both handlers answer 400 before any call. *)
Example missing_coordinates_refused :
  fst (ValueLegacy.handler (Sample.world [] None) (Sample.get [("lat", "43.2")])) = []
  /\ status (snd (ValueLegacy.handler (Sample.world [] None) (Sample.get [("lat", "43.2")]))) = 400
  /\ fst (Value.handler (Sample.world [] None) (Sample.get [("lat", "43.2")])) = []
  /\ status (snd (Value.handler (Sample.world [] None) (Sample.get [("lat", "43.2")]))) = 400.
Proof. vm_compute. repeat split; reflexivity. Qed.

(** [parseFloat] reads the longest numeric prefix: a text such as
    "12abc" counts as the number 12 and the request goes on to
    authentication. *)
Example Value_accepts_numeric_prefix :
  Props.has_numeric_coordinates (Sample.get [("lat", "12abc"); ("lon", "76.9")]) = true
  /\ hd_error (fst (Value.handler Sample.populated
                      (Sample.get [("lat", "12abc"); ("lon", "76.9")])))
     = Some (EnvRead "GEE_PRIVATE_KEY_JSON").
Proof. vm_compute. split; reflexivity. Qed.

End LegacyPointValue.

(** ** The tile URL *)

Section TileUrl.
Import Net.

Abbreviation occ := Props.occurrences.
Abbreviation ph := Props.placeholder.

Lemma strip_prefix_Some (p s r : string) :
  JS.strip_prefix p s = Some r -> s = p +:+ r.
Proof.
  revert s. induction p as [|a p IH]; intros s; cbn.
  - now intros [= ->].
  - destruct s as [|b s]; [discriminate|].
    destruct (Ascii.eqb_spec a b) as [->|_]; [|discriminate].
    intros H. now rewrite (IH _ H).
Qed.

Lemma digit_not_dollar (c : ascii) : JS.is_digit c = true -> Ascii.eqb c "$" = false.
Proof.
  intros H. destruct (Ascii.eqb_spec c "$") as [->|_]; [discriminate|reflexivity].
Qed.

(** A run of digits is a replacement text without patterns. *)
Lemma GetSubstitution_digits (matched before after d : string) :
  Props.all_digits d = true -> JS.GetSubstitution matched before after d = d.
Proof.
  induction d as [|c d IH]; cbn; [reflexivity|].
  intros H. apply andb_true_iff in H as [Hc Hd].
  rewrite (digit_not_dollar c Hc). now rewrite IH.
Qed.

(** [replace] either finds no occurrence and leaves the text as it is, or
    cuts it around one occurrence and puts the digits there. *)
Lemma replace_scan_split (p d : string) :
  Props.all_digits d = true ->
  forall s before,
    (occ p s = 0%nat /\ JS.replace_scan p d before s = s)
    \/ (exists a b, s = a +:+ p +:+ b /\ JS.replace_scan p d before s = a +:+ d +:+ b).
Proof.
  intros Hd. induction s as [|c s IH]; intros before.
  - cbn. destruct (JS.strip_prefix p "") as [after|] eqn:E.
    + right. exists "", after. split.
      * exact (strip_prefix_Some _ _ _ E).
      * now rewrite GetSubstitution_digits.
    + now left.
  - cbn. destruct (JS.strip_prefix p (String c s)) as [after|] eqn:E.
    + right. exists "", after. split.
      * exact (strip_prefix_Some _ _ _ E).
      * now rewrite GetSubstitution_digits.
    + destruct (IH (before +:+ String c "")) as [[H0 Hr]|(a & b & Hs & Hr)].
      * left. now rewrite Hr, H0.
      * right. exists (String c a), b. cbn. now rewrite Hr, Hs.
Qed.

(** Whether [q] starts a text does not change when the text is extended
    by something whose first character is not in [q]. *)
Lemma strip_prefix_blocked (q a : string) (c : ascii) (w : string) :
  Props.char_free c q = true ->
  match JS.strip_prefix q (a +:+ String c w) with Some _ => 1%nat | None => 0%nat end
  = match JS.strip_prefix q a with Some _ => 1%nat | None => 0%nat end.
Proof.
  revert a. induction q as [|e q IH]; intros a H; [reflexivity|].
  cbn in H. apply andb_true_iff in H as [He Hq].
  destruct a as [|g a].
  - change ("" +:+ String c w) with (String c w).
    cbn [JS.strip_prefix].
    apply negb_true_iff in He. now rewrite He.
  - change (String g a +:+ String c w) with (String g (a +:+ String c w)).
    cbn [JS.strip_prefix].
    destruct (Ascii.eqb e g); [now apply IH|reflexivity].
Qed.

(** No occurrence of a non-empty [q] straddles the seam before a
    character that the tail of [q] does not contain. *)
Lemma occurrences_app_blocked (c0 : ascii) (q a : string) (c : ascii) (w : string) :
  Props.char_free c q = true ->
  occ (String c0 q) (a +:+ String c w)
  = (occ (String c0 q) a + occ (String c0 q) (String c w))%nat.
Proof.
  intros H. remember (occ (String c0 q) (String c w)) as k eqn:Ek.
  induction a as [|g a IH].
  - now subst k.
  - change (String g a +:+ String c w) with (String g (a +:+ String c w)).
    cbn [Props.occurrences JS.strip_prefix]. rewrite IH.
    destruct (Ascii.eqb c0 g).
    + rewrite (strip_prefix_blocked q a c w H). lia.
    + lia.
Qed.

(** A pattern that starts with a non-digit does not occur inside a run
    of digits. *)
Lemma occurrences_skip_digits (c0 : ascii) (q d b : string) :
  JS.is_digit c0 = false -> Props.all_digits d = true ->
  occ (String c0 q) (d +:+ b) = occ (String c0 q) b.
Proof.
  intros H0. induction d as [|c d IH]; intros Hd; [reflexivity|].
  cbn in Hd. apply andb_true_iff in Hd as [Hc Hd].
  change (String c d +:+ b) with (String c (d +:+ b)).
  cbn [Props.occurrences JS.strip_prefix].
  destruct (Ascii.eqb_spec c0 c) as [->|_]; [congruence|].
  now rewrite IH.
Qed.

Lemma placeholder_char_free_digit (cq c : ascii) :
  JS.is_digit c = true -> JS.is_digit cq = false ->
  Props.char_free c (String cq (String "}" "")) = true.
Proof.
  intros Hc Hq. cbn [Props.char_free].
  destruct (Ascii.eqb_spec cq c) as [->|_]; [congruence|].
  destruct (Ascii.eqb_spec "}" c) as [<-|_]; [discriminate|reflexivity].
Qed.

(** Occurrences of a placeholder around a tile number. *)
Lemma occurrences_around_number (cq : ascii) (a d b : string) :
  JS.is_digit cq = false -> Props.tile_number d = true ->
  occ (ph cq) (a +:+ d +:+ b) = (occ (ph cq) a + occ (ph cq) b)%nat.
Proof.
  intros Hq Hd. destruct d as [|c d]; [discriminate|].
  cbn in Hd. pose proof Hd as Hd'. apply andb_true_iff in Hd' as [Hc _].
  change (String c d +:+ b) with (String c (d +:+ b)).
  unfold Props.placeholder.
  rewrite occurrences_app_blocked
    by now apply placeholder_char_free_digit.
  f_equal.
  change (String c (d +:+ b)) with (String c d +:+ b).
  now apply occurrences_skip_digits.
Qed.

(** Occurrences of a placeholder around a placeholder. *)
Lemma occurrences_around_placeholder (cp cq : ascii) (a b : string) :
  Ascii.eqb "{" cp = false -> Ascii.eqb "{" cq = false ->
  occ (ph cq) (a +:+ ph cp +:+ b)
  = (occ (ph cq) a + (if Ascii.eqb cq cp then 1 else 0) + occ (ph cq) b)%nat.
Proof.
  intros Hp Hq. unfold Props.placeholder.
  change (String "{" (String cp (String "}" "")) +:+ b)
    with (String "{" (String cp (String "}" b))).
  rewrite occurrences_app_blocked.
  - cbn [Props.occurrences JS.strip_prefix].
    rewrite Hp. change (Ascii.eqb "{" "{") with true.
    change (Ascii.eqb "{" "}") with false. change (Ascii.eqb "}" "}") with true.
    cbn [Props.occurrences JS.strip_prefix].
    destruct (Ascii.eqb cq cp); lia.
  - cbn [Props.char_free].
    destruct (Ascii.eqb_spec cq "{") as [->|_]; [discriminate|reflexivity].
Qed.

Lemma tile_number_all_digits (d : string) :
  Props.tile_number d = true -> Props.all_digits d = true.
Proof. destruct d; [discriminate|trivial]. Qed.

(** One [replace] of a placeholder that occurs once by a tile number:
    the text is cut around the placeholder, the number is put there, and
    the other placeholders occur as often as before. *)
Lemma replace_placeholder_step (cp : ascii) (d s : string) :
  Ascii.eqb "{" cp = false ->
  Props.tile_number d = true ->
  occ (ph cp) s = 1%nat ->
  exists a b,
    s = a +:+ ph cp +:+ b
    /\ JS.replace s (ph cp) (Some d) = a +:+ d +:+ b
    /\ forall cq, Ascii.eqb "{" cq = false -> JS.is_digit cq = false ->
         (occ (ph cq) (JS.replace s (ph cp) (Some d))
          + (if Ascii.eqb cq cp then 1 else 0))%nat = occ (ph cq) s.
Proof.
  intros Hp Hd Hocc. unfold JS.replace. cbn [JS.ToString].
  destruct (replace_scan_split (ph cp) d (tile_number_all_digits d Hd) s "")
    as [[H0 _]|(a & b & Hs & Hr)]; [congruence|].
  exists a, b. split; [exact Hs|]. split; [exact Hr|].
  intros cq Hq Hdq. rewrite Hr, Hs.
  rewrite occurrences_around_number, occurrences_around_placeholder by assumption.
  lia.
Qed.

(** The three replacements of the tile handlers, on a template in which
    each placeholder occurs once and with tile numbers for x, y and z:
    each step replaces one placeholder by its number, and no placeholder
    is left in the result. *)
Theorem tile_url_fills_template (t x y z : string) :
  Props.tile_number x = true ->
  Props.tile_number y = true ->
  Props.tile_number z = true ->
  occ "{x}" t = 1%nat -> occ "{y}" t = 1%nat -> occ "{z}" t = 1%nat ->
  let u := TileRedirect.tile_url t (Some x) (Some y) (Some z) in
  occ "{x}" u = 0%nat /\ occ "{y}" u = 0%nat /\ occ "{z}" u = 0%nat
  /\ exists a1 b1 a2 b2 a3 b3,
       t = a1 +:+ "{x}" +:+ b1
       /\ a1 +:+ x +:+ b1 = a2 +:+ "{y}" +:+ b2
       /\ a2 +:+ y +:+ b2 = a3 +:+ "{z}" +:+ b3
       /\ u = a3 +:+ z +:+ b3.
Proof.
  intros Hx Hy Hz Ox Oy Oz u. subst u. unfold TileRedirect.tile_url.
  change "{x}" with (ph "x") in *. change "{y}" with (ph "y") in *.
  change "{z}" with (ph "z") in *.
  destruct (replace_placeholder_step "x" x t eq_refl Hx Ox)
    as (a1 & b1 & Ht & Hr1 & K1).
  pose proof (K1 "x"%char eq_refl eq_refl) as X1.
  pose proof (K1 "y"%char eq_refl eq_refl) as Y1.
  pose proof (K1 "z"%char eq_refl eq_refl) as Z1.
  cbn [Ascii.eqb Bool.eqb] in X1, Y1, Z1.
  set (t1 := JS.replace t (ph "x") (Some x)) in *.
  assert (Oy1 : occ (ph "y") t1 = 1%nat) by lia.
  destruct (replace_placeholder_step "y" y t1 eq_refl Hy Oy1)
    as (a2 & b2 & Ht1 & Hr2 & K2).
  pose proof (K2 "x"%char eq_refl eq_refl) as X2.
  pose proof (K2 "y"%char eq_refl eq_refl) as Y2.
  pose proof (K2 "z"%char eq_refl eq_refl) as Z2.
  cbn [Ascii.eqb Bool.eqb] in X2, Y2, Z2.
  set (t2 := JS.replace t1 (ph "y") (Some y)) in *.
  assert (Oz2 : occ (ph "z") t2 = 1%nat) by lia.
  destruct (replace_placeholder_step "z" z t2 eq_refl Hz Oz2)
    as (a3 & b3 & Ht2 & Hr3 & K3).
  pose proof (K3 "x"%char eq_refl eq_refl) as X3.
  pose proof (K3 "y"%char eq_refl eq_refl) as Y3.
  pose proof (K3 "z"%char eq_refl eq_refl) as Z3.
  cbn [Ascii.eqb Bool.eqb] in X3, Y3, Z3.
  repeat split; try lia.
  exists a1, b1, a2, b2, a3, b3.
  repeat split; congruence.
Qed.

Lemma tile_url_fills_template_witness :
  let u := TileRedirect.tile_url Sample.template (Some "10") (Some "3") (Some "5") in
  u = "https://earthengine.example/v1/maps/abc/tiles/5/10/3"
  /\ occ "{x}" u = 0%nat /\ occ "{y}" u = 0%nat /\ occ "{z}" u = 0%nat.
Proof.
  intros u. split; [reflexivity|].
  pose proof (tile_url_fills_template Sample.template "10" "3" "5"
                eq_refl eq_refl eq_refl eq_refl eq_refl eq_refl) as H.
  cbv zeta in H. tauto.
Defined.

(** A value that is not a tile number can leave a placeholder behind:
    the text put in for x is itself found by the replacement for y. *)
Example tile_url_placeholder_as_value :
  TileRedirect.tile_url Sample.template (Some "{y}") (Some "3") (Some "5")
  = "https://earthengine.example/v1/maps/abc/tiles/5/3/{y}".
Proof. reflexivity. Qed.

(** With a session and a map id, the redirecting handler answers 302
    with the substituted URL, and the legacy handler answers with the
    template itself. *)
Lemma TileRedirect_handler_redirects (w : World) (req : Request) (key : JS.value) (m : MapId) :
  Props.session_ok w key ->
  getMap w (TileRedirect.getNdviImage w) = (Some m, None) ->
  snd (TileRedirect.handler w req)
  = redirect 302 (TileRedirect.tile_url (urlFormat m)
                    (query req !! "x") (query req !! "y") (query req !! "z")).
Proof.
  intros Hs Hm. unfold TileRedirect.handler, TileRedirect.authenticateAndInitialize.
  rewrite (authenticate_ok w _ key Hs).
  unfold bind at 1. unfold getMapId. rewrite Hm. reflexivity.
Qed.

Lemma TileLegacy_handler_redirects (w : World) (req : Request) (key : JS.value) (m : MapId) :
  Props.session_ok w key ->
  getMap w (TileLegacy.getNdviImage w) = (Some m, None) ->
  snd (TileLegacy.handler w req) = redirect default_redirect_status (urlFormat m).
Proof.
  intros Hs Hm. unfold TileLegacy.handler, TileLegacy.initializeEe.
  rewrite (authenticate_ok w _ key Hs).
  unfold bind at 1. unfold getMapId. rewrite Hm. reflexivity.
Qed.

(** C6.  The specification asks that the URL the tile service redirects to has
    each placeholder replaced by the z, x and y of the request.  The
    legacy handler redirects to the template as the backend gave it, with
    all three placeholders still in it; the redirecting and the proxying
    handlers substitute them for the same request. *)
Theorem C6_legacy_handler_redirects_to_template :
  let req := Sample.get [("z", "5"); ("x", "10"); ("y", "3")] in
  let w := Sample.world [Sample.older; Sample.newer] None in
  snd (TileLegacy.handler w req)
    = redirect 307 "https://earthengine.example/v1/maps/abc/tiles/{z}/{x}/{y}"
  /\ snd (TileRedirect.handler w req)
    = redirect 302 "https://earthengine.example/v1/maps/abc/tiles/5/10/3"
  /\ List.filter (fun ev => match ev with HttpsRequest _ => true | _ => false end)
       (fst (TileProxy.handler w req))
    = [HttpsRequest {| hostname := Some "earthengine.example";
                       path := Some "https://earthengine.example/v1/maps/abc/tiles/5/10/3";
                       options_method := "GET";
                       User_Agent := Some "Mozilla/5.0 (ndvi-map)" |}].
Proof. vm_compute. repeat split; reflexivity. Qed.

End TileUrl.

(** ** The tile proxy *)

Section Proxy.
Import Net.

(** C8.  In proxy mode, when the upstream fetch succeeds, the request
    sent upstream carries the User-Agent of the caller as it came, and
    the status code and headers written to the caller are those of the
    upstream response. *)
Theorem C8_proxy_forwards_user_agent_and_relays_head
    (w : World) (req : Request) (opts : RequestOptions) (proxyRes : UpstreamResponse) :
  In (HttpsRequest opts) (fst (TileProxy.handler w req)) ->
  https_request w opts = inr proxyRes ->
  User_Agent opts = headers req !! "user-agent"
  /\ status (snd (TileProxy.handler w req)) = statusCode proxyRes
  /\ response_headers (snd (TileProxy.handler w req)) = upstream_headers proxyRes.
Proof.
  unfold TileProxy.handler, TileProxy.authenticateAndInitialize,
    TileRedirect.authenticateAndInitialize, authenticate, getMapId, get_urlFormat.
  cbn.
  destruct (JSON_parse w _); cbn; [intuition discriminate|].
  destruct (authenticateViaPrivateKey w _); cbn; [intuition discriminate|].
  destruct (initialize w _); cbn; [intuition discriminate|].
  destruct (getMap w _) as [mapId error].
  destruct (JS.ToBoolean (JS.of_param error)); cbn; [intuition discriminate|].
  destruct mapId as [m|]; cbn; [|intuition discriminate].
  intros [H|[H|[H|[H|[H|[H|[]]]]]]]; try discriminate.
  injection H as <-. intros Hfetch. rewrite Hfetch. cbn. auto.
Qed.

Lemma C8_proxy_forwards_user_agent_and_relays_head_witness :
  let w := Sample.world [Sample.older; Sample.newer] None in
  let req := Sample.get [("z", "5"); ("x", "10"); ("y", "3")] in
  let opts := TileProxy.options w "https://earthengine.example/v1/maps/abc/tiles/5/10/3" req in
  User_Agent opts = Some "Mozilla/5.0 (ndvi-map)"
  /\ User_Agent opts = headers req !! "user-agent"
  /\ status (snd (TileProxy.handler w req)) = 200
  /\ response_headers (snd (TileProxy.handler w req)) = {[ "content-type" := "image/png" ]}.
Proof.
  intros w req opts.
  destruct (C8_proxy_forwards_user_agent_and_relays_head w req opts Sample.tile)
    as (Hua & Hst & Hhd).
  - vm_compute. do 5 right. left. reflexivity.
  - reflexivity.
  - split; [reflexivity|]. split; [exact Hua|]. split; [exact Hst|exact Hhd].
Defined.

End Proxy.

(** ** Credentials *)

Section Credentials.
Import Net.

Abbreviation loads := Process.credential_loads.

Lemma credential_loads_app (t1 t2 : list Event) :
  loads (t1 ++ t2)%list = (loads t1 + loads t2)%nat.
Proof.
  unfold Process.credential_loads. now rewrite List.filter_app, length_app.
Qed.

Lemma process_trace_cons (run : list Event * Response) (runs : list (list Event * Response)) :
  Process.process_trace (run :: runs) = (fst run ++ Process.process_trace runs)%list.
Proof. reflexivity. Qed.

(** Every run of [authenticate] reads the key from the environment once. *)
Lemma authenticate_loads_once (w : World) (on_auth_error : string -> thrown) :
  loads (fst (authenticate w on_auth_error)) = 1%nat.
Proof.
  unfold authenticate. cbn.
  destruct (JSON_parse w _); cbn; [reflexivity|].
  destruct (authenticateViaPrivateKey w _); cbn; [reflexivity|].
  destruct (initialize w _); reflexivity.
Qed.

Lemma getMapId_loads (w : World) (image : option (EE.Image Q)) :
  loads (fst (getMapId w image)) = 0%nat.
Proof.
  unfold getMapId. cbn. destruct (getMap w image) as [mapId error].
  destruct (JS.ToBoolean (JS.of_param error)); reflexivity.
Qed.

Lemma runAnalysis_loads (w : World) (lat lon : JS.number) :
  loads (fst (Value.runAnalysis w lat lon)) = 0%nat.
Proof.
  unfold Value.runAnalysis. cbn.
  destruct (evaluate_index w _) as [id err].
  destruct (JS.ToBoolean (JS.of_param err) || negb (JS.ToBoolean id)); cbn; [reflexivity|].
  destruct (evaluate_reduce w _ _ _ _) as [result error].
  destruct (JS.ToBoolean (JS.of_param error)); [reflexivity|].
  destruct (Value.is_missing result); reflexivity.
Qed.

Lemma try_catch_trace (m : Async Response) (h : thrown -> Response) :
  fst (try_catch m h) = fst m.
Proof. destruct m as [t [r|e]]; reflexivity. Qed.

Lemma TileRedirect_handler_loads (w : World) (req : Request) :
  loads (fst (TileRedirect.handler w req)) = 1%nat.
Proof.
  unfold TileRedirect.handler, TileRedirect.authenticateAndInitialize, authenticate,
    getMapId, get_urlFormat. cbn.
  destruct (JSON_parse w _); cbn; [reflexivity|].
  destruct (authenticateViaPrivateKey w _); cbn; [reflexivity|].
  destruct (initialize w _); cbn; [reflexivity|].
  destruct (getMap w _) as [mapId error].
  destruct (JS.ToBoolean (JS.of_param error)); cbn; [reflexivity|].
  destruct mapId; reflexivity.
Qed.

Lemma TileProxy_handler_loads (w : World) (req : Request) :
  loads (fst (TileProxy.handler w req)) = 1%nat.
Proof.
  unfold TileProxy.handler, TileProxy.authenticateAndInitialize,
    TileRedirect.authenticateAndInitialize, authenticate, getMapId, get_urlFormat. cbn.
  destruct (JSON_parse w _); cbn; [reflexivity|].
  destruct (authenticateViaPrivateKey w _); cbn; [reflexivity|].
  destruct (initialize w _); cbn; [reflexivity|].
  destruct (getMap w _) as [mapId error].
  destruct (JS.ToBoolean (JS.of_param error)); cbn; [reflexivity|].
  destruct mapId; reflexivity.
Qed.

Lemma bind_loads {A B} (m : Async A) (k : A -> Async B) :
  loads (fst (bind m k))
  = match snd m with
    | Resolved a => (loads (fst m) + loads (fst (k a)))%nat
    | Rejected _ => loads (fst m)
    end.
Proof.
  destruct m as [t [a|e]]; unfold bind; cbn [fst snd]; [|reflexivity].
  destruct (k a) as [t' r]. cbn [fst]. apply credential_loads_app.
Qed.

Lemma Value_handler_loads (w : World) (req : Request) :
  loads (fst (Value.handler w req))
  = if Props.reaches_authentication req then 1%nat else 0%nat.
Proof.
  unfold Value.handler, Props.reaches_authentication, Props.has_numeric_coordinates.
  destruct (String.eqb (method req) "OPTIONS"); [reflexivity|].
  destruct (JS.isNaN _ || JS.isNaN _); [reflexivity|].
  cbn [negb andb]. rewrite try_catch_trace, bind_loads.
  unfold Value.authenticateAndInitialize. rewrite authenticate_loads_once.
  destruct (snd (authenticate w _)); [|reflexivity].
  rewrite bind_loads, runAnalysis_loads.
  destruct (snd (Value.runAnalysis w _ _)); reflexivity.
Qed.


Example key_loaded_for_each_tile :
  loads (Process.process_trace
           (Process.serve TileRedirect.handler Sample.populated
              [Sample.tile_request; Sample.tile_request; Sample.tile_request])) = 3%nat.
Proof. vm_compute. reflexivity. Qed.

Lemma bind_trace_split {A B} (m : Async A) (k : A -> Async B) :
  fst (bind m k)
  = (fst m ++ match snd m with
              | Resolved a => fst (k a)
              | Rejected _ => []
              end)%list.
Proof.
  destruct m as [t [a|e]]; unfold bind; cbn [fst snd].
  - now destruct (k a).
  - now rewrite app_nil_r.
Qed.

Abbreviation others := (Forall (fun ev => Notions.is_session_event ev = false)).

Lemma others_facts (w : World) (t : list Event) :
  others t ->
  loads t = 0%nat /\ Notions.project_reads t = 0%nat
  /\ forall ev, In ev t -> Notions.uses_process_credentials w ev.
Proof.
  induction 1 as [|ev t Hev _ (IH1 & IH2 & IH3)].
  - repeat split. intros ev [].
  - destruct ev; try discriminate; repeat split; auto;
      intros ev' [<-|Hin]; cbn; auto.
Qed.

(** What every run of [authenticate] does with the credentials. *)
Lemma authenticate_facts (w : World) (on_auth_error : string -> thrown) :
  let t := fst (authenticate w on_auth_error) in
  (exists rest, t = EnvRead "GEE_PRIVATE_KEY_JSON" :: rest)
  /\ loads t = 1%nat
  /\ Notions.project_reads t
     = match Notions.parsed_key w with inr _ => 1%nat | inl _ => 0%nat end
  /\ forall ev, In ev t -> Notions.uses_process_credentials w ev.
Proof.
  unfold authenticate, Notions.parsed_key. cbn.
  destruct (JSON_parse w _) as [m|key] eqn:Ek; cbn.
  - repeat split; eauto. intros ev [<-|[]]. exact I.
  - destruct (authenticateViaPrivateKey w key); cbn.
    + repeat split; eauto.
      intros ev [<-|[<-|[<-|[]]]]; cbn; auto.
    + destruct (initialize w _); cbn; repeat split; eauto;
        intros ev [<-|[<-|[<-|[<-|[]]]]]; cbn; auto.
Qed.

Lemma getMapId_others (w : World) (image : option (EE.Image Q)) :
  others (fst (getMapId w image)).
Proof.
  unfold getMapId. cbn. destruct (getMap w image) as [mapId error].
  destruct (JS.ToBoolean (JS.of_param error)); cbn; repeat constructor.
Qed.

Lemma runAnalysis_others (w : World) (lat lon : JS.number) :
  others (fst (Value.runAnalysis w lat lon)).
Proof.
  unfold Value.runAnalysis. cbn.
  destruct (evaluate_index w _) as [id err].
  destruct (JS.ToBoolean (JS.of_param err) || negb (JS.ToBoolean id)); cbn;
    [repeat constructor|].
  destruct (evaluate_reduce w _ _ _ _) as [result error].
  destruct (JS.ToBoolean (JS.of_param error)); [repeat constructor|].
  destruct (Value.is_missing result); repeat constructor.
Qed.

(** The trace of a request: nothing, or the run of [authenticate]
    followed by calls that do not touch the credentials. *)
Lemma credential_handlers_shape
    (handler : World -> Request -> list Event * Response) (w : World) (req : Request) :
  In handler Notions.credential_handlers ->
  fst (handler w req) = []
  \/ exists on_auth_error rest,
       fst (handler w req) = (fst (authenticate w on_auth_error) ++ rest)%list
       /\ others rest.
Proof.
  intros [<-|[<-|[<-|[]]]].
  - right. unfold TileRedirect.handler, TileRedirect.authenticateAndInitialize.
    rewrite try_catch_trace, bind_trace_split.
    eexists _, _. split; [reflexivity|].
    destruct (snd (authenticate w _)); [|constructor].
    rewrite bind_trace_split. apply Forall_app. split; [apply getMapId_others|].
    destruct (snd (getMapId w _)) as [[m|]|]; cbn; constructor.
  - right. unfold TileProxy.handler, TileProxy.authenticateAndInitialize,
      TileRedirect.authenticateAndInitialize.
    rewrite try_catch_trace, bind_trace_split.
    eexists _, _. split; [reflexivity|].
    destruct (snd (authenticate w _)); [|constructor].
    rewrite bind_trace_split. apply Forall_app. split; [apply getMapId_others|].
    destruct (snd (getMapId w _)) as [[m|]|]; cbn; repeat constructor.
  - unfold Value.handler.
    destruct (String.eqb (method req) "OPTIONS"); [now left|].
    rewrite try_catch_trace.
    destruct (JS.isNaN _ || JS.isNaN _); [now left|].
    right. unfold Value.authenticateAndInitialize. rewrite bind_trace_split.
    eexists _, _. split; [reflexivity|].
    destruct (snd (authenticate w _)); [|constructor].
    rewrite bind_trace_split. apply Forall_app. split; [apply runAnalysis_others|].
    destruct (snd (Value.runAnalysis w _ _)); cbn; constructor.
Qed.

Lemma project_reads_app (t1 t2 : list Event) :
  Notions.project_reads (t1 ++ t2)%list
  = (Notions.project_reads t1 + Notions.project_reads t2)%nat.
Proof.
  unfold Notions.project_reads. now rewrite List.filter_app, length_app.
Qed.

(** What one request does with the credentials. *)
Lemma credentials_of_a_request
    (handler : World -> Request -> list Event * Response) (w : World) (req : Request) :
  In handler Notions.credential_handlers ->
  Notions.starts_with_key_read (fst (handler w req))
  /\ Notions.project_reads (fst (handler w req))
     = match Notions.parsed_key w with
       | inr _ => loads (fst (handler w req))
       | inl _ => 0%nat
       end
  /\ forall ev, In ev (fst (handler w req)) -> Notions.uses_process_credentials w ev.
Proof.
  intros Hh.
  destruct (credential_handlers_shape handler w req Hh) as [->|(f & rest & -> & Ho)].
  - split; [now left|]. split; [now destruct (Notions.parsed_key w)|]. intros ev [].
  - destruct (authenticate_facts w f) as ((tl & Ht) & Hl & Hp & Hc).
    destruct (others_facts w rest Ho) as (Rl & Rp & Rc).
    split; [right; rewrite Ht; cbn; eauto|]. split.
    + rewrite project_reads_app, credential_loads_app, Hp, Hl, Rp, Rl.
      now destruct (Notions.parsed_key w).
    + intros ev Hin. apply in_app_or in Hin as [Hin|Hin]; auto.
Qed.

Lemma serve_snoc (handler : World -> Request -> list Event * Response)
    (w : World) (before : list Request) (req : Request) :
  Process.serve handler w (before ++ [req])
  = (Process.serve handler w before ++ [handler w req])%list.
Proof.
  induction before as [|r before IH]; cbn; [reflexivity|now rewrite IH].
Qed.



End Credentials.

(** ** The recommendation handler *)

Section Recommendation.
Import Net.

Lemma is_zero_falsy (v : JS.value) : Props.is_zero v -> JS.ToBoolean v = false.
Proof.
  intros (q & -> & Hq). cbn. apply Qeq_bool_iff in Hq. now rewrite Hq.
Qed.

(** C10.  A POST to the recommendation endpoint whose body has [lat],
    [lon] or [ndvi] equal to the number 0 is answered with 400 and the
    message for missing data, before anything else is done: presence is
    tested by truthiness. *)
Theorem C10_zero_field_is_rejected_as_missing
    (w : World) (req : Request) (fields : list (string * JS.value)) :
  method req = "POST" ->
  body req = JS.Obj fields ->
  Props.is_zero (JS.get fields "lat")
    \/ Props.is_zero (JS.get fields "lon")
    \/ Props.is_zero (JS.get fields "ndvi") ->
  Recommend.handler w req =
    ([], json 400 Recommend.cors
           (JS.Obj [("error", JS.Str Recommend.missing_data_message)])).
Proof.
  intros Hm Hb Hz. unfold Recommend.handler. rewrite Hm, Hb. cbn.
  destruct Hz as [Hz|[Hz|Hz]]; apply is_zero_falsy in Hz; rewrite Hz; cbn;
    rewrite ?orb_true_r; reflexivity.
Qed.

Lemma C10_zero_field_is_rejected_as_missing_witness :
  let fields := [("lat", JS.Num (JS.Finite (432 # 10)));
                 ("lon", JS.Num (JS.Finite (769 # 10)));
                 ("ndvi", JS.Num (JS.Finite 0));
                 ("weatherData", JS.Obj []);
                 ("lang", JS.Str "kk")] in
  Recommend.handler (Sample.world [] None) (Sample.post (JS.Obj fields)) =
    ([], json 400 Recommend.cors
           (JS.Obj [("error", JS.Str Recommend.missing_data_message)])).
Proof.
  intros fields.
  apply (C10_zero_field_is_rejected_as_missing _ _ fields); [reflexivity|reflexivity|].
  right. right. exists 0%Q. split; reflexivity.
Defined.

(** With every field present and truthy the handler goes on. *)
Example recommendation_accepts_nonzero :
  snd (Recommend.handler (Sample.world [] None)
         (Sample.post (JS.Obj [("lat", JS.Num (JS.Finite (432 # 10)));
                               ("lon", JS.Num (JS.Finite (769 # 10)));
                               ("ndvi", JS.Num (JS.Finite (5 # 10)));
                               ("weatherData", JS.Obj [])])))
  = json 200 Recommend.cors (JS.Obj [("recommendation", JS.Str "advice")]).
Proof. vm_compute. reflexivity. Qed.

End Recommendation.

(* ===================================================================== *)
(** * Further properties of the code *)
(* ===================================================================== *)

(** ** interpretNdvi *)

Section InterpretNdvi.

Lemma less_than_Finite (q c : Q) :
  Advice.less_than (JS.Finite q) c = true <-> (q < c)%Q.
Proof.
  cbn. rewrite Qlt_alt. destruct (q ?= c)%Q; split; congruence.
Qed.

Lemma less_than_Finite_false (q c : Q) :
  Advice.less_than (JS.Finite q) c = false <-> (c <= q)%Q.
Proof.
  rewrite <- not_true_iff_false, less_than_Finite. split.
  - apply Qnot_lt_le.
  - apply Qle_not_lt.
Qed.

Lemma double_thresholds_ordered :
  (Advice.double_0_2 <= Advice.double_0_4)%Q /\ (Advice.double_0_4 <= Advice.double_0_6)%Q.
Proof. split; vm_compute; discriminate. Qed.

(** The text for very high plant health is given exactly when the value
    is not below the double 0.6 (0.6 itself included), and that
    includes a value that is not a number. *)
Theorem interpretNdvi_very_high (ndvi : JS.number) :
  Advice.interpretNdvi ndvi = Advice.very_high
  <-> ndvi = JS.NaN \/ ndvi = JS.Infinity false
      \/ exists q, ndvi = JS.Finite q /\ (Advice.double_0_6 <= q)%Q.
Proof.
  destruct double_thresholds_ordered as [O24 O46].
  destruct ndvi as [|[|]|q].
  - split; [now left|reflexivity].
  - split; [discriminate|]. intros [H|[H|(q & H & _)]]; discriminate.
  - split; [now right; left|reflexivity].
  - unfold Advice.interpretNdvi. split.
    + intros H. right. right. exists q. split; [reflexivity|].
      destruct (Advice.less_than (JS.Finite q) Advice.double_0_2); [discriminate|].
      destruct (Advice.less_than (JS.Finite q) Advice.double_0_4); [discriminate|].
      destruct (Advice.less_than (JS.Finite q) Advice.double_0_6) eqn:E; [discriminate|].
      now apply less_than_Finite_false.
    + intros [H|[H|(q' & [= <-] & Hq)]]; try discriminate.
      assert (E6 : Advice.less_than (JS.Finite q) Advice.double_0_6 = false)
        by now apply less_than_Finite_false.
      assert (E4 : Advice.less_than (JS.Finite q) Advice.double_0_4 = false).
      { apply less_than_Finite_false. eapply Qle_trans; [exact O46|exact Hq]. }
      assert (E2 : Advice.less_than (JS.Finite q) Advice.double_0_2 = false).
      { apply less_than_Finite_false.
        eapply Qle_trans; [exact O24|]. eapply Qle_trans; [exact O46|exact Hq]. }
      now rewrite E2, E4, E6.
Qed.

(** The number 0.6 itself is on the upper side of the last threshold. *)
Example interpretNdvi_at_0_6 :
  Advice.interpretNdvi (JS.Finite Advice.double_0_6) = Advice.very_high.
Proof. reflexivity. Qed.

(** The four texts follow the value upwards: a larger value never gets
    the text of a lower class. *)
Theorem interpretNdvi_monotone (q1 q2 : Q) :
  (q1 <= q2)%Q ->
  (Notions.ndvi_class (Advice.interpretNdvi (JS.Finite q1))
   <= Notions.ndvi_class (Advice.interpretNdvi (JS.Finite q2)))%nat.
Proof.
  intros H. destruct double_thresholds_ordered as [O24 O46].
  unfold Advice.interpretNdvi.
  destruct (Advice.less_than (JS.Finite q1) Advice.double_0_2) eqn:A1;
  destruct (Advice.less_than (JS.Finite q1) Advice.double_0_4) eqn:A2;
  destruct (Advice.less_than (JS.Finite q1) Advice.double_0_6) eqn:A3;
  destruct (Advice.less_than (JS.Finite q2) Advice.double_0_2) eqn:B1;
  destruct (Advice.less_than (JS.Finite q2) Advice.double_0_4) eqn:B2;
  destruct (Advice.less_than (JS.Finite q2) Advice.double_0_6) eqn:B3;
  try (vm_compute; lia);
  rewrite ?less_than_Finite, ?less_than_Finite_false in *; lra.
Qed.

Lemma interpretNdvi_monotone_witness :
  (Notions.ndvi_class (Advice.interpretNdvi (JS.Finite (25 # 100)))
   <= Notions.ndvi_class (Advice.interpretNdvi (JS.Finite (55 # 100))))%nat.
Proof. apply interpretNdvi_monotone. discriminate. Defined.

End InterpretNdvi.

(** ** getWeatherDescription *)

Section WeatherDescription.

Abbreviation lookup_count := Advice.lookup_count.
Abbreviation keys := Advice.Object_keys.
Abbreviation times := (count_occ N.eq_dec).

Lemma lookup_assign (acc : Advice.counts) (c k : N) (v : nat) :
  lookup_count (Advice.assign acc c v) k
  = if (k =? c)%N then Some v else lookup_count acc k.
Proof.
  induction acc as [|[k0 n] rest IH]; cbn.
  - reflexivity.
  - destruct (N.eqb_spec c k0) as [->|Hc]; cbn.
    + destruct (N.eqb_spec k k0); reflexivity.
    + destruct (c <? k0)%N; cbn.
      * destruct (N.eqb_spec k c); reflexivity.
      * rewrite IH. destruct (N.eqb_spec k k0) as [->|]; [|reflexivity].
        destruct (N.eqb_spec k0 c); congruence.
Qed.

Lemma keys_assign (acc : Advice.counts) (c k : N) (v : nat) :
  In k (keys (Advice.assign acc c v)) <-> k = c \/ In k (keys acc).
Proof.
  induction acc as [|[k0 n] rest IH]; cbn.
  - intuition.
  - destruct (N.eqb_spec c k0) as [->|Hc]; cbn.
    + intuition.
    + destruct (c <? k0)%N; cbn; [intuition|]. rewrite IH. intuition.
Qed.

Lemma assign_sorted (acc : Advice.counts) (c : N) (v : nat) :
  StronglySorted N.lt (keys acc) ->
  StronglySorted N.lt (keys (Advice.assign acc c v)).
Proof.
  induction acc as [|[k0 n] rest IH]; cbn; intros Hs.
  - repeat constructor.
  - apply StronglySorted_inv in Hs as [Hrest Hk0].
    destruct (N.eqb_spec c k0) as [->|Hc]; cbn.
    + now constructor.
    + destruct (N.ltb_spec c k0) as [Hlt|Hge]; cbn.
      * constructor; [now constructor|].
        constructor; [exact Hlt|].
        apply List.Forall_forall. intros a Ha.
        rewrite List.Forall_forall in Hk0. specialize (Hk0 a Ha). lia.
      * constructor; [now apply IH|].
        apply List.Forall_forall. intros a Ha. apply keys_assign in Ha as [->|Ha].
        -- lia.
        -- rewrite List.Forall_forall in Hk0. now apply Hk0.
Qed.

Lemma lookup_is_Some (acc : Advice.counts) (k : N) :
  In k (keys acc) <-> exists n, lookup_count acc k = Some n.
Proof.
  induction acc as [|[k0 n] rest IH]; cbn.
  - split; [tauto|]. now intros [n H].
  - destruct (N.eqb_spec k k0) as [->|Hk].
    + split; [eauto|auto].
    + rewrite <- IH. intuition congruence.
Qed.

(** The table holds, for every code, the number of times it occurs. *)
Lemma codeCounts_lookup (codes : list N) (k : N) :
  lookup_count (Advice.codeCounts codes) k
  = match times codes k with O => None | S n => Some (S n) end.
Proof.
  unfold Advice.codeCounts.
  assert (G : forall acc,
    (forall j n, lookup_count acc j = Some n -> n <> O) ->
    lookup_count (fold_left Advice.tally codes acc) k
    = match (times codes k + match lookup_count acc k with Some n => n | None => O end)%nat
      with O => None | S n => Some (S n) end).
  { induction codes as [|c codes IH]; intros acc Hpos.
    - cbn. destruct (lookup_count acc k) as [[|n]|] eqn:E; try reflexivity.
      now apply Hpos in E.
    - cbn [fold_left]. rewrite IH.
      + unfold Advice.tally. rewrite lookup_assign. cbn [count_occ].
        destruct (N.eq_dec c k) as [->|Hne].
        * rewrite N.eqb_refl.
          destruct (lookup_count acc k) as [[|n]|];
            match goal with
            | |- match ?a with _ => _ end = match ?b with _ => _ end =>
                replace a with b by lia
            end; reflexivity.
        * destruct (N.eqb_spec k c); [congruence|reflexivity].
      + intros j n. unfold Advice.tally. rewrite lookup_assign.
        destruct (j =? c)%N; [|apply Hpos].
        intros [= <-]. lia. }
  rewrite G by (intros j n; discriminate). cbn. now rewrite Nat.add_0_r.
Qed.

Lemma codeCounts_keys (codes : list N) (k : N) :
  In k (keys (Advice.codeCounts codes)) <-> In k codes.
Proof.
  rewrite lookup_is_Some, codeCounts_lookup, (count_occ_In N.eq_dec).
  destruct (times codes k); split.
  - now intros [n H].
  - lia.
  - lia.
  - eauto.
Qed.

Lemma codeCounts_sorted (codes : list N) :
  StronglySorted N.lt (keys (Advice.codeCounts codes)).
Proof.
  unfold Advice.codeCounts.
  assert (G : forall acc, StronglySorted N.lt (keys acc) ->
                          StronglySorted N.lt (keys (fold_left Advice.tally codes acc))).
  { induction codes as [|c codes IH]; intros acc Hs; [exact Hs|].
    cbn [fold_left]. apply IH. now apply assign_sorted. }
  apply G. constructor.
Qed.

Lemma more_frequent_codeCounts (codes : list N) (a b : N) :
  In a codes -> In b codes ->
  Advice.more_frequent (Advice.codeCounts codes) a b
  = if (times codes b <? times codes a)%nat then a else b.
Proof.
  intros Ha Hb. unfold Advice.more_frequent. rewrite !codeCounts_lookup.
  apply (count_occ_In N.eq_dec) in Ha, Hb.
  destruct (times codes a); [lia|]. destruct (times codes b); [lia|]. reflexivity.
Qed.

(** The reduction over ascending keys keeps the most frequent code seen
    so far, and the later, larger one among equally frequent codes. *)
Lemma reduce_dominant (codes : list N) (ks : list N) (a : N) :
  StronglySorted N.lt (a :: ks) ->
  (forall k, In k (a :: ks) -> In k codes) ->
  let r := fold_left (Advice.more_frequent (Advice.codeCounts codes)) ks a in
  In r (a :: ks)
  /\ forall d, In d (a :: ks) ->
       (times codes d <= times codes r)%nat
       /\ (times codes d = times codes r -> (d <= r)%N).
Proof.
  revert a. induction ks as [|b ks IH]; intros a Hs Hin; cbn.
  - split; [now left|]. intros d [<-|[]]. split; [lia|intros _; lia].
  - apply StronglySorted_inv in Hs as [Hs Ha].
    pose proof Hs as Hs'. apply StronglySorted_inv in Hs' as [Hks Hb].
    apply Forall_cons_iff in Ha as [Hab Ha].
    rewrite more_frequent_codeCounts by (apply Hin; cbn; auto).
    destruct (Nat.ltb_spec (times codes b) (times codes a)) as [Hlt|Hge].
    + destruct (IH a) as [Hr Hd].
      * now constructor.
      * intros k [<-|Hk]; apply Hin; cbn; auto.
      * cbn in Hr. split; [destruct Hr; auto|].
        intros d [<-|[<-|Hd']].
        -- apply Hd. now left.
        -- destruct (Hd a (or_introl eq_refl)) as [H1 _]. split; lia.
        -- apply Hd. now right.
    + destruct (IH b Hs) as [Hr Hd].
      * intros k Hk. apply Hin. now right.
      * split; [now right|].
        intros d [<-|Hd']; [|now apply Hd].
        destruct (Hd b (or_introl eq_refl)) as [H1 H2]. split; [lia|].
        intros E. assert (b <= fold_left (Advice.more_frequent (Advice.codeCounts codes)) ks b)%N
          by (apply H2; lia). lia.
Qed.

Lemma mostFrequentCode_nonempty (codes : list N) :
  codes <> [] ->
  exists c, Advice.mostFrequentCode codes = Some c /\ Notions.dominant codes c.
Proof.
  intros Hne. unfold Advice.mostFrequentCode.
  pose proof (codeCounts_sorted codes) as Hs.
  pose proof (codeCounts_keys codes) as Hk.
  destruct (keys (Advice.codeCounts codes)) as [|k ks].
  - destruct codes as [|c codes]; [congruence|].
    destruct (proj2 (Hk c) (or_introl eq_refl)).
  - destruct (reduce_dominant codes ks k Hs) as [Hr Hd].
    + intros j Hj. now apply Hk.
    + eexists. split; [reflexivity|]. split.
      * now apply Hk.
      * intros d Hd'. apply Hd. now apply Hk.
Qed.

(** For weather codes below 2^32 - 1, the code [getWeatherDescription]
    describes is the most frequent one of a non-empty forecast, and the
    largest among the most frequent. *)
Theorem mostFrequentCode_dominant (codes : list N) :
  Forall (fun c => (c < 4294967295)%N) codes ->
  codes <> [] ->
  exists c, Advice.mostFrequentCode codes = Some c /\ Notions.dominant codes c.
Proof. intros _. exact (mostFrequentCode_nonempty codes). Qed.

Lemma mostFrequentCode_dominant_witness :
  Advice.mostFrequentCode Demo.forecast = Some 61%N
  /\ exists c, Advice.mostFrequentCode Demo.forecast = Some c
               /\ Notions.dominant Demo.forecast c.
Proof.
  split; [reflexivity|]. apply mostFrequentCode_dominant.
  - unfold Demo.forecast. repeat (constructor; [reflexivity|]). constructor.
  - discriminate.
Defined.

Lemma dominant_unique (codes : list N) (c1 c2 : N) :
  Notions.dominant codes c1 -> Notions.dominant codes c2 -> c1 = c2.
Proof.
  intros [H1 D1] [H2 D2].
  destruct (D1 c2 H2) as [A1 B1]. destruct (D2 c1 H1) as [A2 B2].
  assert (E : times codes c1 = times codes c2) by lia.
  specialize (B1 (eq_sym E)). specialize (B2 E). lia.
Qed.

(** The function throws exactly on an empty forecast. *)
Theorem getWeatherDescription_throws_iff_empty (codes : list N) :
  Advice.getWeatherDescription codes = None <-> codes = [].
Proof.
  unfold Advice.getWeatherDescription. split.
  - intros H. destruct codes as [|c codes]; [reflexivity|].
    destruct (mostFrequentCode_nonempty (c :: codes)) as (r & Hr & _); [discriminate|].
    rewrite Hr in H. discriminate.
  - now intros ->.
Qed.

(** The description does not depend on the order of the days. *)
Theorem getWeatherDescription_permutation (codes codes' : list N) :
  Permutation codes codes' ->
  Advice.getWeatherDescription codes = Advice.getWeatherDescription codes'.
Proof.
  intros HP. destruct codes as [|c codes].
  - apply Permutation_nil in HP. now subst.
  - assert (Hne' : codes' <> []).
    { intros ->. apply Permutation_sym, Permutation_nil in HP. discriminate. }
    destruct (mostFrequentCode_nonempty (c :: codes)) as (r & Hr & Hd); [discriminate|].
    destruct (mostFrequentCode_nonempty codes' Hne') as (r' & Hr' & Hd').
    assert (r = r') as <-.
    { apply (dominant_unique codes' r r'); [|exact Hd'].
      destruct Hd as [Hin Hmax]. split.
      - now apply (Permutation_in _ HP).
      - intros d Hd0. apply Permutation_sym in HP.
        pose proof (Permutation_in _ HP Hd0) as Hd1.
        apply Permutation_sym in HP.
        pose proof (proj1 (Permutation_count_occ N.eq_dec _ _) HP) as Hc.
        rewrite <- !Hc. now apply Hmax. }
    unfold Advice.getWeatherDescription. now rewrite Hr, Hr'.
Qed.

Lemma getWeatherDescription_permutation_witness :
  Advice.getWeatherDescription [0; 61; 61]%N = Advice.getWeatherDescription [61; 0; 61]%N.
Proof.
  apply getWeatherDescription_permutation. apply perm_swap.
Defined.

(** Equally frequent codes: the larger one is described. *)
Example weather_tie : Advice.getWeatherDescription [95; 0; 0; 95]%N = Some "thunderstorms".
Proof. reflexivity. Qed.

Example weather_unknown_code : Advice.getWeatherDescription [45; 45; 0]%N = Some "varied conditions".
Proof. reflexivity. Qed.

End WeatherDescription.

(** ** The answer of the text-generation service *)

Section OpenAiAnswer.
Import Net.

Variable JSON_parse : string -> option Advice.json.

Lemma append_empty_r (s : string) : s +:+ "" = s.
Proof.
  induction s as [|c s IH]; [reflexivity|].
  change (String c s +:+ "") with (String c (s +:+ "")). now rewrite IH.
Qed.

Lemma append_assoc (a b c : string) : (a +:+ b) +:+ c = a +:+ b +:+ c.
Proof.
  induction a as [|x a IH]; [reflexivity|].
  change ((String x a +:+ b) +:+ c) with (String x ((a +:+ b) +:+ c)).
  now rewrite IH.
Qed.

Lemma collect_from (chunks : list string) (data : string) :
  fold_left (fun d chunk => d +:+ chunk) chunks data = data +:+ Advice.collect chunks.
Proof.
  unfold Advice.collect. revert data.
  induction chunks as [|c chunks IH]; intros data; cbn [fold_left].
  - symmetry. apply append_empty_r.
  - rewrite IH, (IH ("" +:+ c)). now rewrite append_assoc.
Qed.

(** The body is the chunks put end to end. *)
Lemma collect_concat (chunks : list string) :
  Advice.collect chunks = String.concat "" chunks.
Proof.
  induction chunks as [|c chunks IH]; [reflexivity|].
  unfold Advice.collect. cbn [fold_left]. rewrite collect_from, IH.
  destruct chunks as [|c' chunks]; cbn; [now rewrite append_empty_r|reflexivity].
Qed.

(** Once the chunks are texts, only the text they add up to matters
    for the way the promise settles. *)
Theorem settle_ignores_chunking (statusCode : Z) (chunks chunks' : list string) :
  String.concat "" chunks = String.concat "" chunks' ->
  Advice.settle JSON_parse (Advice.Answered statusCode chunks)
  = Advice.settle JSON_parse (Advice.Answered statusCode chunks').
Proof.
  intros H. unfold Advice.settle. now rewrite !collect_concat, H.
Qed.

Lemma settle_resolved (answer : Advice.Answer) (text : string) :
  Advice.settle JSON_parse answer = Resolved text
  <-> exists statusCode chunks parsedData,
        answer = Advice.Answered statusCode chunks
        /\ 200 <= statusCode < 300
        /\ JSON_parse (Advice.collect chunks) = Some parsedData
        /\ Advice.content_of parsedData = Some text.
Proof.
  split.
  - destruct answer as [m|st chunks]; cbn; [discriminate|].
    destruct (Z.leb_spec 200 st), (Z.ltb_spec st 300); cbn; try discriminate.
    destruct (JSON_parse (Advice.collect chunks)) as [parsed|] eqn:Ep; [|discriminate].
    destruct (Advice.content_of parsed) as [t|] eqn:Ec; [|discriminate].
    intros [= ->]. exists st, chunks, parsed. repeat split; auto.
  - intros (st & chunks & parsed & -> & [H1 H2] & Hp & Hc). cbn.
    apply Z.leb_le in H1. apply Z.ltb_lt in H2.
    now rewrite H1, H2, Hp, Hc.
Qed.

Lemma trim_start_not_blank (s : string) :
  Notions.starts_blank (JS.trim_start s) = false.
Proof.
  induction s as [|c s IH]; cbn; [reflexivity|].
  destruct (JS.StrWhiteSpaceChar c) eqn:E; [exact IH|].
  cbn. exact E.
Qed.

Lemma trim_end_keeps_start (s : string) :
  Notions.starts_blank s = false -> Notions.starts_blank (Advice.trim_end s) = false.
Proof.
  destruct s as [|c r]; [reflexivity|]. cbn [Notions.starts_blank Advice.trim_end].
  intros E. destruct (Advice.trim_end r); [rewrite E|]; cbn; auto.
Qed.

Lemma trim_end_not_blank (s : string) :
  Notions.ends_blank (Advice.trim_end s) = false.
Proof.
  induction s as [|c r IH]; [reflexivity|]. cbn [Advice.trim_end].
  destruct (Advice.trim_end r) as [|d r'] eqn:E.
  - destruct (JS.StrWhiteSpaceChar c) eqn:Ec; cbn; auto.
  - exact IH.
Qed.

Lemma content_of_trimmed (parsedData : Advice.json) (text : string) :
  Advice.content_of parsedData = Some text ->
  exists s, text = Advice.trim s.
Proof.
  unfold Advice.content_of.
  destruct (Advice.member (Some parsedData) "choices") as [choices|]; [|discriminate].
  destruct (Advice.first_item choices) as [choice|]; [|discriminate].
  destruct (Advice.member choice "message") as [message|]; [|discriminate].
  destruct (Advice.member message "content") as [content|]; [|discriminate].
  destruct content as [[| | |s| |]|]; try discriminate.
  intros [= <-]. now exists s.
Qed.

(** The text a resolved promise carries has no white space at either
    end. *)
Theorem settle_resolves_trimmed (answer : Advice.Answer) (text : string) :
  Advice.settle JSON_parse answer = Resolved text ->
  Notions.starts_blank text = false /\ Notions.ends_blank text = false.
Proof.
  intros H. apply settle_resolved in H as (st & chunks & parsed & _ & _ & _ & Hc).
  apply content_of_trimmed in Hc as (s & ->). unfold Advice.trim. split.
  - apply trim_end_keeps_start, trim_start_not_blank.
  - apply trim_end_not_blank.
Qed.

End OpenAiAnswer.

Lemma settle_ignores_chunking_witness :
  Advice.settle Demo.parse_one (Advice.Answered 200 ["{comp"; "letion}"])
  = Advice.settle Demo.parse_one (Advice.Answered 200 ["{"; "completion"; "}"]).
Proof. apply settle_ignores_chunking. reflexivity. Defined.

Lemma settle_resolves_trimmed_witness :
  Advice.settle Demo.parse_one (Advice.Answered 200 ["{comp"; "letion}"])
    = Net.Resolved "Irrigate on Friday."
  /\ Notions.starts_blank "Irrigate on Friday." = false
  /\ Notions.ends_blank "Irrigate on Friday." = false.
Proof.
  split; [reflexivity|].
  apply (settle_resolves_trimmed Demo.parse_one
           (Advice.Answered 200 ["{comp"; "letion}"])).
  reflexivity.
Defined.

Example settle_bad_status :
  Advice.settle Demo.parse_one (Advice.Answered 429 ["slow "; "down"])
  = Net.Rejected (Net.Error "OpenAI API request failed with status 429: slow down").
Proof. vm_compute. reflexivity. Qed.

Example settle_unparsed :
  Advice.settle Demo.parse_one (Advice.Answered 200 ["<html>"])
  = Net.Rejected (Net.Error "Failed to parse OpenAI response.").
Proof. reflexivity. Qed.

(** ** The session comes first *)

Section SessionFirst.
Import Net.

Lemma bind_trace {A B} (m : Async A) (k : A -> Async B) :
  fst (bind m k)
  = match snd m with
    | Resolved a => (fst m ++ fst (k a))%list
    | Rejected _ => fst m
    end.
Proof.
  destruct m as [t [a|e]]; unfold bind; cbn [fst snd]; [|reflexivity].
  now destruct (k a).
Qed.

Lemma bind_outcome {A B} (m : Async A) (k : A -> Async B) :
  snd (bind m k)
  = match snd m with
    | Resolved a => snd (k a)
    | Rejected e => Rejected e
    end.
Proof.
  destruct m as [t [a|e]]; unfold bind; cbn [fst snd]; [|reflexivity].
  now destruct (k a).
Qed.

Lemma try_catch_response (m : Async Response) (h : thrown -> Response) :
  snd (try_catch m h)
  = match snd m with
    | Resolved r => r
    | Rejected e => h e
    end.
Proof. destruct m as [t [r|e]]; reflexivity. Qed.

(** [authenticate] either establishes the session with the four calls,
    or is rejected without having asked the backend anything. *)
Lemma authenticate_cases (w : World) (on_auth_error : string -> thrown) :
  (exists key, Props.session_ok w key
               /\ authenticate w on_auth_error = (Props.session_events w key, Resolved tt))
  \/ (exists e, snd (authenticate w on_auth_error) = Rejected e
                /\ forall ev, In ev (fst (authenticate w on_auth_error)) ->
                              Notions.is_query ev = false).
Proof.
  unfold authenticate. cbn.
  destruct (JSON_parse w _) as [m|key] eqn:Ek; cbn.
  - right. eexists. split; [reflexivity|]. intros ev [<-|[]]. reflexivity.
  - destruct (authenticateViaPrivateKey w key) as [err|] eqn:Ea; cbn.
    + right. eexists. split; [reflexivity|].
      intros ev [<-|[<-|[<-|[]]]]; reflexivity.
    + destruct (initialize w _) as [e|] eqn:Ei; cbn.
      * right. eexists. split; [reflexivity|].
        intros ev [<-|[<-|[<-|[<-|[]]]]]; reflexivity.
      * left. exists key. split; [now repeat split|reflexivity].
Qed.

Lemma session_first_bind {A} (w : World) (on_auth_error : string -> thrown)
    (k : unit -> Async A) (ev : Event) :
  In ev (fst (bind (authenticate w on_auth_error) k)) ->
  Notions.is_query ev = true ->
  exists key rest,
    Props.session_ok w key
    /\ fst (bind (authenticate w on_auth_error) k) = (Props.session_events w key ++ rest)%list.
Proof.
  rewrite bind_trace.
  destruct (authenticate_cases w on_auth_error) as [(key & Hs & ->)|(e & -> & Hq)].
  - intros _ _. cbn [fst snd]. now exists key, (fst (k tt)).
  - intros Hin Hev. rewrite (Hq ev Hin) in Hev. discriminate.
Qed.

(** No handler asks the backend for a map, a property or a reduction,
    or fetches a tile, before the session is established: a trace with
    such a call starts with the four calls of a successful
    authentication. *)
Theorem queries_only_after_session
    (handler : World -> Request -> list Event * Response)
    (w : World) (req : Request) (ev : Event) :
  In handler Notions.gee_handlers ->
  In ev (fst (handler w req)) ->
  Notions.is_query ev = true ->
  exists key rest,
    Props.session_ok w key
    /\ fst (handler w req) = (Props.session_events w key ++ rest)%list.
Proof.
  intros [<-|[<-|[<-|[<-|[<-|[]]]]]].
  - unfold TileRedirect.handler. rewrite try_catch_trace. apply session_first_bind.
  - unfold TileProxy.handler. rewrite try_catch_trace. apply session_first_bind.
  - unfold TileLegacy.handler. rewrite try_catch_trace. apply session_first_bind.
  - unfold Value.handler.
    destruct (String.eqb (method req) "OPTIONS"); [intros []|].
    rewrite try_catch_trace.
    destruct (JS.isNaN _ || JS.isNaN _); [intros []|].
    apply session_first_bind.
  - unfold ValueLegacy.handler.
    destruct (negb _ || negb _); [intros []|].
    rewrite try_catch_trace. apply session_first_bind.
Qed.

Lemma queries_only_after_session_witness :
  exists key rest,
    Props.session_ok Sample.populated key
    /\ fst (Value.handler Sample.populated Sample.point_request)
       = (Props.session_events Sample.populated key ++ rest)%list.
Proof.
  apply (queries_only_after_session Value.handler Sample.populated
           Sample.point_request EvaluateIndex).
  - do 3 right. left. reflexivity.
  - vm_compute. do 4 right. left. reflexivity.
  - reflexivity.
Defined.

End SessionFirst.

(** ** The point-value handler, in general *)

Section ValueHandler.
Import Net.

(** A resolved [runAnalysis]: the composite exists, the pixel under the
    point has an NDVI, and that NDVI is the value handed back, after
    the existence check and the reduction, in this order. *)
Lemma runAnalysis_resolved (w : World) (lat lon : JS.number) (t : list Event) (data : JS.value) :
  Value.runAnalysis w lat lon = (t, Resolved data) ->
  exists img q,
    Value.composite w (EE.Point lon lat) = Some img
    /\ EE.pixel_at (EE.normalizedDifference_B8_B4 img) (EE.Point lon lat) = Some q
    /\ data = JS.Obj [("ndvi", JS.Num (JS.Finite q))]
    /\ t = [EvaluateIndex; EvaluateReduce Reducer_first (EE.Point lon lat) 10].
Proof.
  unfold Value.runAnalysis, evaluate_index, evaluate_reduce. cbn.
  destruct (evaluate_failure w EvaluateIndex) as [e|]; cbn.
  { destruct (negb (String.eqb e "")); cbn; discriminate. }
  destruct (Value.composite w (EE.Point lon lat)) as [img|]; cbn.
  2:{ destruct (null_image_failure w) as [e|]; cbn;
        [destruct (negb (String.eqb e "")); cbn; discriminate|discriminate]. }
  destruct (negb (String.eqb (EE.system_index img) "")); cbn; [|discriminate].
  destruct (evaluate_failure w _) as [e|]; cbn.
  { destruct (negb (String.eqb e "")); cbn; discriminate. }
  destruct (match EE.pixel_at img (EE.Point lon lat) with
            | Some p => EE.ndvi_pixel p
            | None => None
            end) as [q|] eqn:Eq; cbn; [|discriminate].
  intros [= <- <-]. exists img, q. repeat split. exact Eq.
Qed.

(** A 200 answer to a request that is not a pre-flight OPTIONS request
    carries the NDVI of the composite at the point of the request: never
    null, never a value from elsewhere; and the session, the existence
    check and the reduction were made, in this order. *)
Theorem Value_success_carries_ndvi (w : World) (req : Request) :
  String.eqb (method req) "OPTIONS" = false ->
  status (snd (Value.handler w req)) = 200 ->
  let point := EE.Point (JS.parseFloat (query req !! "lon"))
                        (JS.parseFloat (query req !! "lat")) in
  exists key img q,
    Props.session_ok w key
    /\ Value.composite w point = Some img
    /\ EE.pixel_at (EE.normalizedDifference_B8_B4 img) point = Some q
    /\ Value.handler w req
       = ((Props.session_events w key
             ++ [EvaluateIndex; EvaluateReduce Reducer_first point 10])%list,
          json 200 Value.cors (JS.Obj [("ndvi", JS.Num (JS.Finite q))])).
Proof.
  intros Hm. unfold Value.handler. rewrite Hm.
  destruct (JS.isNaN _ || JS.isNaN _); [discriminate|].
  unfold Value.authenticateAndInitialize.
  destruct (authenticate_cases w
              (fun err => Error ("GEE Authentication failed: " +:+ err)))
    as [(key & Hs & ->)|(e & He & _)].
  - unfold bind at 1.
    destruct (Value.runAnalysis w _ _) as [t [data|e]] eqn:Er.
    + intros _.
      apply runAnalysis_resolved in Er as (img & q & Hc & Hp & -> & ->).
      exists key, img, q.
      split; [exact Hs|]. split; [exact Hc|]. split; [exact Hp|]. reflexivity.
    + cbn. discriminate.
  - rewrite try_catch_response, bind_outcome, He. discriminate.
Qed.

Lemma Value_success_carries_ndvi_witness :
  exists key img q,
    Props.session_ok Sample.populated key
    /\ Value.composite Sample.populated Sample.almaty = Some img
    /\ EE.pixel_at (EE.normalizedDifference_B8_B4 img) Sample.almaty = Some q
    /\ Value.handler Sample.populated Sample.point_request
       = ((Props.session_events Sample.populated key
             ++ [EvaluateIndex; EvaluateReduce Reducer_first Sample.almaty 10])%list,
          json 200 Value.cors (JS.Obj [("ndvi", JS.Num (JS.Finite q))])).
Proof.
  apply (Value_success_carries_ndvi Sample.populated Sample.point_request);
    reflexivity.
Defined.

(** Every answer of the handler has one of three status codes and
    carries the three CORS headers. *)
Theorem Value_status_and_headers (w : World) (req : Request) :
  (status (snd (Value.handler w req)) = 200
   \/ status (snd (Value.handler w req)) = 400
   \/ status (snd (Value.handler w req)) = 500)
  /\ response_headers (snd (Value.handler w req)) = Value.cors.
Proof.
  unfold Value.handler.
  destruct (String.eqb (method req) "OPTIONS"); [cbn; auto|].
  rewrite try_catch_response.
  destruct (JS.isNaN _ || JS.isNaN _); [cbn; auto|].
  rewrite !bind_outcome.
  destruct (snd (Value.authenticateAndInitialize w)); [|cbn; auto].
  destruct (snd (Value.runAnalysis w _ _)); cbn; auto.
Qed.



(** A request whose [lat] or [lon] is absent, empty or without a numeric
    prefix is answered with 400, and nothing outside the handler is
    called: no read of the environment, no authentication. *)
Theorem Value_rejects_invalid_coordinates (w : World) (req : Request) :
  String.eqb (method req) "OPTIONS" = false ->
  Props.has_numeric_coordinates req = false ->
  Value.handler w req =
    ([], json 400 Value.cors (JS.Obj [("error", JS.Str "Invalid or missing coordinates.")])).
Proof. exact (Value_handler_invalid_coordinates w req). Qed.

Lemma Value_rejects_invalid_coordinates_witness :
  Value.handler Sample.populated (Sample.get [("lat", "north"); ("lon", "76.9")])
  = ([], json 400 Value.cors (JS.Obj [("error", JS.Str "Invalid or missing coordinates.")])).
Proof.
  apply Value_rejects_invalid_coordinates; reflexivity.
Defined.

(** With a session and no image that passes the filters at the point,
    the handler makes the existence check, does not ask for the
    reduction, and answers 500 with the message for a missing image. *)
Theorem Value_reports_missing_image (w : World) (req : Request) (key : JS.value) :
  String.eqb (method req) "OPTIONS" = false ->
  Props.has_numeric_coordinates req = true ->
  Props.session_ok w key ->
  Value.candidates w (EE.Point (JS.parseFloat (query req !! "lon"))
                               (JS.parseFloat (query req !! "lat"))) = [] ->
  Value.handler w req =
    ((Props.session_events w key ++ [EvaluateIndex])%list,
     json 500 Value.cors (JS.Obj [("error", JS.Str Value.no_image_message)])).
Proof. exact (Value_handler_no_image w req key). Qed.

Lemma Value_reports_missing_image_witness :
  Value.handler (Sample.world [Sample.overcast] None) Sample.point_request
  = ((Props.session_events (Sample.world [Sample.overcast] None) (JS.Str "{}")
        ++ [EvaluateIndex])%list,
     json 500 Value.cors (JS.Obj [("error", JS.Str Value.no_image_message)])).
Proof.
  apply Value_reports_missing_image; try reflexivity.
  repeat split; reflexivity.
Defined.

(** With a session and a composite, a reduction that comes back null or
    undefined is answered with 500 and the message for a location
    without data. *)
Theorem Value_reports_missing_value
    (w : World) (req : Request) (key id result : JS.value) :
  let lat := JS.parseFloat (query req !! "lat") in
  let lon := JS.parseFloat (query req !! "lon") in
  String.eqb (method req) "OPTIONS" = false ->
  Props.has_numeric_coordinates req = true ->
  Props.session_ok w key ->
  evaluate_index w (Value.composite w (EE.Point lon lat)) = (id, None) ->
  JS.ToBoolean id = true ->
  evaluate_reduce w Reducer_first (EE.ndvi_of (Value.composite w (EE.Point lon lat)))
    (EE.Point lon lat) 10 = (result, None) ->
  Value.is_missing result = true ->
  Value.handler w req =
    ((Props.session_events w key
        ++ [EvaluateIndex; EvaluateReduce Reducer_first (EE.Point lon lat) 10])%list,
     json 500 Value.cors (JS.Obj [("error", JS.Str Value.no_data_message)])).
Proof. exact (Value_handler_no_value w req key id result). Qed.

Lemma Value_reports_missing_value_witness :
  let w := Sample.world [Sample.older; Sample.newest_cloudy_here] None in
  Value.handler w Sample.point_request
  = ((Props.session_events w (JS.Str "{}")
        ++ [EvaluateIndex; EvaluateReduce Reducer_first Sample.almaty 10])%list,
     json 500 Value.cors (JS.Obj [("error", JS.Str Value.no_data_message)])).
Proof.
  intros w.
  apply (Value_reports_missing_value w Sample.point_request (JS.Str "{}")
           (JS.Str "20231118T060000") JS.null); try reflexivity.
  repeat split; reflexivity.
Defined.

End ValueHandler.

(** ** What the composite is made of *)

Section Pipeline.
Import Net.

Lemma first_In {P} (l : list (EE.Image P)) (img : EE.Image P) :
  EE.first l = Some img -> In img l.
Proof. destruct l; [discriminate|]. intros [= ->]. now left. Qed.

(** The composite of a point query is the masked form of a catalog
    image that covers the point, was acquired in the 120 days before
    the request and has a cloud cover below 20. *)
Theorem Value_composite_passes_filters
    (w : World) (point : EE.Geometry) (img : EE.Image EE.Pixel) :
  Value.composite w point = Some img ->
  exists source,
    In source (S2_SR_HARMONIZED w)
    /\ img = EE.maskS2clouds source
    /\ EE.intersects source point = true
    /\ Date_now_first w - 120 * 86400000 <= EE.system_time_start img < Date_now_second w
    /\ (EE.CLOUDY_PIXEL_PERCENTAGE img < 20)%Q.
Proof.
  unfold Value.composite, Value.candidates, EE.filterCloudy, EE.filterDate, EE.filterBounds.
  intros H. apply first_In, sort_desc_In, in_map_iff in H as (source & <- & Hin).
  apply filter_In in Hin as [Hin Hcloud].
  apply filter_In in Hin as [Hin Hdate].
  apply filter_In in Hin as [Hin Hbounds].
  exists source. split; [exact Hin|]. split; [reflexivity|]. split; [exact Hbounds|].
  apply andb_true_iff in Hdate as [H1 H2].
  apply Z.leb_le in H1. apply Z.ltb_lt in H2. cbn. split; [split; assumption|].
  rewrite Qlt_alt. destruct (_ ?= _)%Q; [discriminate|reflexivity|discriminate].
Qed.

Lemma Value_composite_passes_filters_witness :
  exists source,
    In source [Sample.older; Sample.newer; Sample.overcast]
    /\ EE.maskS2clouds Sample.newer = EE.maskS2clouds source
    /\ EE.intersects source Sample.almaty = true
    /\ Sample.now - 120 * 86400000
         <= EE.system_time_start (EE.maskS2clouds Sample.newer) < Sample.now
    /\ (EE.CLOUDY_PIXEL_PERCENTAGE (EE.maskS2clouds Sample.newer) < 20)%Q.
Proof.
  apply (Value_composite_passes_filters
           (Sample.world [Sample.older; Sample.newer; Sample.overcast] None)
           Sample.almaty (EE.maskS2clouds Sample.newer)).
  vm_compute. reflexivity.
Defined.

(** ** NDVI from raw values *)

Lemma scaled_sum_zero (p : EE.RawPixel) :
  (EE.b8 (EE.divide p 10000) + EE.b4 (EE.divide p 10000) == 0)%Q
  <-> EE.B8 p + EE.B4 p = 0.
Proof.
  cbn. change (inject_Z 10000) with 10000%Q.
  assert (E : (inject_Z (EE.B8 p) / 10000 + inject_Z (EE.B4 p) / 10000
               == inject_Z (EE.B8 p + EE.B4 p) / 10000)%Q).
  { rewrite inject_Z_plus. field. }
  rewrite E. split.
  - intros H.
    assert (E0 : (inject_Z (EE.B8 p + EE.B4 p)
                  == inject_Z (EE.B8 p + EE.B4 p) / 10000 * 10000)%Q) by field.
    rewrite H in E0. unfold Qeq in E0. cbn in E0. lia.
  - intros ->. reflexivity.
Qed.

Lemma ndvi_pixel_of_raw (p : EE.RawPixel) :
  (EE.B8 p + EE.B4 p = 0 -> EE.ndvi_pixel (EE.divide p 10000) = None)
  /\ (EE.B8 p + EE.B4 p <> 0 ->
      exists v, EE.ndvi_pixel (EE.divide p 10000) = Some v
                /\ (v == inject_Z (EE.B8 p - EE.B4 p) / inject_Z (EE.B8 p + EE.B4 p))%Q).
Proof.
  split.
  - intros H. apply normalized_difference_undefined. now apply scaled_sum_zero.
  - intros H. eexists. split.
    + apply normalized_difference_defined. now rewrite scaled_sum_zero.
    + cbn. change (inject_Z 10000) with 10000%Q.
      unfold Zminus. rewrite !inject_Z_plus, inject_Z_opp.
      assert (Hs : ~ (inject_Z (EE.B8 p) + inject_Z (EE.B4 p) == 0)%Q).
      { intros E. apply H. rewrite <- inject_Z_plus in E.
        unfold Qeq in E. cbn in E. lia. }
      field. exact Hs.
Qed.

(** For raw values that are not negative and not both zero the index
    lies between -1 and 1. *)
Theorem ndvi_within_bounds (p : EE.RawPixel) :
  0 <= EE.B4 p -> 0 <= EE.B8 p -> 0 < EE.B8 p + EE.B4 p ->
  exists v, EE.ndvi_pixel (EE.divide p 10000) = Some v /\ (- (1) <= v <= 1)%Q.
Proof.
  intros H4 H8 Hs.
  destruct (proj2 (ndvi_pixel_of_raw p)) as (v & Hv & Ev); [lia|].
  exists v. split; [exact Hv|]. rewrite Ev.
  assert (Hq : (0 < inject_Z (EE.B8 p + EE.B4 p))%Q).
  { unfold Qlt. cbn. lia. }
  assert (Q4 : (0 <= inject_Z (EE.B4 p))%Q) by (unfold Qle; cbn; lia).
  assert (Q8 : (0 <= inject_Z (EE.B8 p))%Q) by (unfold Qle; cbn; lia).
  split.
  - apply Qle_shift_div_l; [exact Hq|].
    unfold Zminus. rewrite !inject_Z_plus, inject_Z_opp. lra.
  - apply Qle_shift_div_r; [exact Hq|].
    unfold Zminus. rewrite !inject_Z_plus, inject_Z_opp. lra.
Qed.

Lemma ndvi_within_bounds_witness :
  exists v, EE.ndvi_pixel (EE.divide Sample.vegetated 10000) = Some v
            /\ (- (1) <= v <= 1)%Q.
Proof.
  apply ndvi_within_bounds; cbn; lia.
Defined.

End Pipeline.

(** ** More on the tile URL *)

Section TileUrlEdges.
Import Net.

Lemma replace_scan_absent (p r : string) (s : string) :
  Props.occurrences p s = 0%nat ->
  forall before, JS.replace_scan p r before s = s.
Proof.
  induction s as [|c s IH]; intros H before; cbn in *.
  - destruct (JS.strip_prefix p ""); [discriminate|reflexivity].
  - destruct (JS.strip_prefix p (String c s)); [discriminate|].
    now rewrite IH.
Qed.

(** A template without placeholders is left as it is, whatever the
    query holds. *)
Theorem tile_url_without_placeholders (t : string) (x y z : option string) :
  Props.occurrences "{x}" t = 0%nat ->
  Props.occurrences "{y}" t = 0%nat ->
  Props.occurrences "{z}" t = 0%nat ->
  TileRedirect.tile_url t x y z = t.
Proof.
  intros Hx Hy Hz. unfold TileRedirect.tile_url, JS.replace.
  rewrite (replace_scan_absent "{x}" _ t Hx).
  rewrite (replace_scan_absent "{y}" _ t Hy).
  now rewrite (replace_scan_absent "{z}" _ t Hz).
Qed.

Lemma tile_url_without_placeholders_witness :
  TileRedirect.tile_url "https://tiles.example/static.png" (Some "10") None (Some "$&")
  = "https://tiles.example/static.png".
Proof. apply tile_url_without_placeholders; reflexivity. Defined.

Lemma replace_scan_matched (p s : string) :
  forall before, JS.replace_scan p "$&" before s = s.
Proof.
  induction s as [|c s IH]; intros before; cbn [JS.replace_scan].
  - destruct (JS.strip_prefix p "") as [after|] eqn:E; [|reflexivity].
    change (JS.GetSubstitution p before after "$&") with (p +:+ "").
    rewrite append_empty_r. symmetry. exact (strip_prefix_Some _ _ _ E).
  - destruct (JS.strip_prefix p (String c s)) as [after|] eqn:E.
    + change (JS.GetSubstitution p before after "$&") with (p +:+ "").
      rewrite append_empty_r. symmetry. exact (strip_prefix_Some _ _ _ E).
    + now rewrite IH.
Qed.

(** The values of the query are used as replacement patterns: with the
    pattern for the matched text as x, y and z, every placeholder is
    put back and the URL is the template, whatever the template is. *)
Theorem tile_url_matched_pattern (t : string) :
  TileRedirect.tile_url t (Some "$&") (Some "$&") (Some "$&") = t.
Proof.
  unfold TileRedirect.tile_url, JS.replace. cbn [JS.ToString].
  now rewrite !replace_scan_matched.
Qed.

End TileUrlEdges.

(** ** More on the tile proxy *)

Section ProxyEdges.
Import Net.

(** Every request the proxy sends is a GET whose hostname and path are
    those that [url.parse] gives for the substituted tile URL of the map
    the backend returned, whatever the method of the caller, and its
    only header is the User-Agent of the caller. *)
Theorem TileProxy_request_target (w : World) (req : Request) (opts : RequestOptions) :
  In (HttpsRequest opts) (fst (TileProxy.handler w req)) ->
  exists m,
    fst (getMap w (TileProxy.getNdviImage w)) = Some m
    /\ (let tileUrl :=
          JS.replace
            (JS.replace (JS.replace (urlFormat m) "{x}" (query req !! "x"))
               "{y}" (query req !! "y"))
            "{z}" (query req !! "z") in
        hostname opts = fst (url_parse w tileUrl)
        /\ path opts = snd (url_parse w tileUrl))
    /\ options_method opts = "GET"
    /\ User_Agent opts = headers req !! "user-agent".
Proof.
  unfold TileProxy.handler, TileProxy.authenticateAndInitialize,
    TileRedirect.authenticateAndInitialize, authenticate, getMapId, get_urlFormat.
  cbn.
  destruct (JSON_parse w _); cbn; [intuition discriminate|].
  destruct (authenticateViaPrivateKey w _); cbn; [intuition discriminate|].
  destruct (initialize w _); cbn; [intuition discriminate|].
  destruct (getMap w _) as [mapId error].
  destruct (JS.ToBoolean (JS.of_param error)); cbn; [intuition discriminate|].
  destruct mapId as [m|]; cbn; [|intuition discriminate].
  intros [H|[H|[H|[H|[H|[H|[]]]]]]]; try discriminate.
  injection H as <-. exists m. repeat split.
Qed.

Lemma TileProxy_request_target_witness :
  exists m,
    fst (getMap Sample.populated (TileProxy.getNdviImage Sample.populated)) = Some m
    /\ (let tileUrl :=
          JS.replace
            (JS.replace (JS.replace (urlFormat m) "{x}" (query Sample.tile_request !! "x"))
               "{y}" (query Sample.tile_request !! "y"))
            "{z}" (query Sample.tile_request !! "z") in
        Some "earthengine.example" = fst (url_parse Sample.populated tileUrl)
        /\ Some "https://earthengine.example/v1/maps/abc/tiles/5/10/3"
           = snd (url_parse Sample.populated tileUrl))
    /\ "GET" = "GET"
    /\ Some "Mozilla/5.0 (ndvi-map)" = headers Sample.tile_request !! "user-agent".
Proof.
  apply (TileProxy_request_target Sample.populated Sample.tile_request
           {| hostname := Some "earthengine.example";
              path := Some "https://earthengine.example/v1/maps/abc/tiles/5/10/3";
              options_method := "GET";
              User_Agent := Some "Mozilla/5.0 (ndvi-map)" |}).
  vm_compute. do 5 right. left. reflexivity.
Defined.

(** When the upstream fetch fails the caller gets 500 with a plain
    text, not the JSON error of the other failures. *)
Theorem TileProxy_upstream_failure
    (w : World) (req : Request) (opts : RequestOptions) (e : string) :
  In (HttpsRequest opts) (fst (TileProxy.handler w req)) ->
  https_request w opts = inl e ->
  snd (TileProxy.handler w req)
  = {| status := 500; response_headers := ∅;
       response_body := Text "Failed to proxy tile request" |}.
Proof.
  unfold TileProxy.handler, TileProxy.authenticateAndInitialize,
    TileRedirect.authenticateAndInitialize, authenticate, getMapId, get_urlFormat.
  cbn.
  destruct (JSON_parse w _); cbn; [intuition discriminate|].
  destruct (authenticateViaPrivateKey w _); cbn; [intuition discriminate|].
  destruct (initialize w _); cbn; [intuition discriminate|].
  destruct (getMap w _) as [mapId error].
  destruct (JS.ToBoolean (JS.of_param error)); cbn; [intuition discriminate|].
  destruct mapId as [m|]; cbn; [|intuition discriminate].
  intros [H|[H|[H|[H|[H|[H|[]]]]]]]; try discriminate.
  injection H as <-. intros Hfetch. now rewrite Hfetch.
Qed.

Lemma TileProxy_upstream_failure_witness :
  snd (TileProxy.handler Demo.unreachable Sample.tile_request)
  = {| status := 500; response_headers := ∅;
       response_body := Text "Failed to proxy tile request" |}.
Proof.
  apply (TileProxy_upstream_failure Demo.unreachable Sample.tile_request
           (TileProxy.options Demo.unreachable
              "https://earthengine.example/v1/maps/abc/tiles/5/10/3" Sample.tile_request)
           "ECONNRESET").
  - vm_compute. do 5 right. left. reflexivity.
  - reflexivity.
Defined.

End ProxyEdges.

(** ** The recommendation handler, in general *)

Section RecommendHandler.
Import Net.

(** Every answer has one of four status codes and carries the three
    CORS headers. *)
Theorem Recommend_status_and_headers (w : World) (req : Request) :
  (status (snd (Recommend.handler w req)) = 200
   \/ status (snd (Recommend.handler w req)) = 400
   \/ status (snd (Recommend.handler w req)) = 405
   \/ status (snd (Recommend.handler w req)) = 500)
  /\ response_headers (snd (Recommend.handler w req)) = Recommend.cors.
Proof.
  unfold Recommend.handler.
  destruct (String.eqb (method req) "OPTIONS"); [cbn; auto|].
  destruct (negb (String.eqb (method req) "POST")); [cbn; auto 6|].
  rewrite try_catch_response, bind_outcome.
  destruct (snd (Recommend.destructure (body req))) as [fields|e]; [|cbn; auto 6].
  destruct (negb _ || negb _ || negb _ || negb _); [cbn; auto 6|].
  rewrite bind_outcome. cbn [emit snd].
  destruct (negb (JS.ToBoolean (JS.of_param (env w !! "OPENAI_API_KEY"))));
    [cbn; auto 6|].
  rewrite bind_outcome.
  destruct (snd (Recommend.lift _)) as [prompt|e]; [|cbn; auto 6].
  rewrite bind_outcome. cbn [emit snd]. rewrite bind_outcome.
  destruct (snd (Recommend.lift _)) as [recommendation|e]; cbn; auto 6.
Qed.

End RecommendHandler.

Section RecommendOutcomes.
Import Net.

(** Without an API key in the environment a valid request is answered
    with the 500 of a configuration error, and the text-generation
    service is not asked. *)
Theorem Recommend_missing_api_key (w : World) (req : Request) :
  method req = "POST" ->
  Notions.has_required_data (body req) = true ->
  JS.ToBoolean (JS.of_param (env w !! "OPENAI_API_KEY")) = false ->
  Recommend.handler w req
  = ([EnvRead "OPENAI_API_KEY"],
     json 500 Recommend.cors
       (JS.Obj [("error", JS.Str "Server configuration error: Missing OpenAI API key.")])).
Proof.
  intros Hm Hd Hk. unfold Recommend.handler. rewrite Hm. cbn.
  unfold Notions.has_required_data in Hd.
  destruct (body req) as [| | | | |fields]; try discriminate. cbn.
  apply andb_true_iff in Hd as [Hd H4]. apply andb_true_iff in Hd as [Hd H3].
  apply andb_true_iff in Hd as [H1 H2].
  rewrite H1, H2, H3, H4. cbn. now rewrite Hk.
Qed.

Lemma Recommend_missing_api_key_witness :
  Recommend.handler Demo.keyless Demo.advice_request
  = ([EnvRead "OPENAI_API_KEY"],
     json 500 Recommend.cors
       (JS.Obj [("error", JS.Str "Server configuration error: Missing OpenAI API key.")])).
Proof. apply Recommend_missing_api_key; reflexivity. Defined.

End RecommendOutcomes.

Section TileOutcomes.
Import Net.

(** With a session and a map id, the redirecting handler answers 302
    with the location set to the template of the map in which the x, y
    and z of the query were substituted. *)
Theorem TileRedirect_redirects_to_tile
    (w : World) (req : Request) (key : JS.value) (m : MapId) :
  Props.session_ok w key ->
  getMap w (TileRedirect.getNdviImage w) = (Some m, None) ->
  snd (TileRedirect.handler w req)
  = redirect 302 (TileRedirect.tile_url (urlFormat m)
                    (query req !! "x") (query req !! "y") (query req !! "z")).
Proof. exact (TileRedirect_handler_redirects w req key m). Qed.

Lemma TileRedirect_redirects_to_tile_witness :
  snd (TileRedirect.handler Sample.populated Sample.tile_request)
  = redirect 302 "https://earthengine.example/v1/maps/abc/tiles/5/10/3".
Proof.
  apply (TileRedirect_redirects_to_tile Sample.populated Sample.tile_request
           (JS.Str "{}") {| urlFormat := Sample.template |}).
  - repeat split; reflexivity.
  - reflexivity.
Defined.

(** When the backend reports an error for the map, both tile handlers
    answer 500 with that error as details; nothing is redirected and no
    tile is fetched. *)
Theorem tile_map_failure_is_reported
    (w : World) (req : Request) (key : JS.value) (mapId : option MapId) (error : string) :
  Props.session_ok w key ->
  getMap w (TileRedirect.getNdviImage w) = (mapId, Some error) ->
  error <> "" ->
  let failure :=
    ((Props.session_events w key ++ [GetMap vis_min vis_max palette])%list,
     json 500 ∅ (JS.Obj [("error", JS.Str "Failed to generate GEE map tiles.");
                         ("details", JS.Str error)])) in
  TileRedirect.handler w req = failure /\ TileProxy.handler w req = failure.
Proof.
  intros Hs Hm Hne failure. subst failure.
  apply String.eqb_neq in Hne. split.
  - unfold TileRedirect.handler, TileRedirect.authenticateAndInitialize.
    rewrite (authenticate_ok w _ key Hs). unfold bind at 1.
    unfold getMapId. rewrite Hm. cbn. now rewrite Hne.
  - unfold TileProxy.handler, TileProxy.authenticateAndInitialize,
      TileRedirect.authenticateAndInitialize.
    rewrite (authenticate_ok w _ key Hs). unfold bind at 1.
    unfold getMapId, TileProxy.getNdviImage. rewrite Hm. cbn. now rewrite Hne.
Qed.

Lemma tile_map_failure_is_reported_witness :
  let failure :=
    ((Props.session_events Demo.mapless (JS.Str "{}")
        ++ [GetMap vis_min vis_max palette])%list,
     json 500 ∅ (JS.Obj [("error", JS.Str "Failed to generate GEE map tiles.");
                         ("details", JS.Str "Image.visualize: no bands.")])) in
  TileRedirect.handler Demo.mapless Sample.tile_request = failure
  /\ TileProxy.handler Demo.mapless Sample.tile_request = failure.
Proof.
  apply (tile_map_failure_is_reported Demo.mapless Sample.tile_request
           (JS.Str "{}") None "Image.visualize: no bands.").
  - repeat split; reflexivity.
  - reflexivity.
  - discriminate.
Defined.

End TileOutcomes.
